(** * reSID waveform generator (wave.h) and the SIDOsc voice ring

    A shallow embedding of [reSID::WaveformGenerator] as it is declared
    and defined inline in [resid/wave.h], of the integer types of
    [resid/siddefs.h], and of the per-sample loop body of
    [SIDOsc::next] in [plugins/SIDOsc/SIDOsc.cpp], followed by the
    properties the specification states about them.

    Every register is a [Z]; the wrap-around of the C++ type that holds
    it is written out ([u32] for [unsigned int], [u16] for
    [unsigned short], [s32] for [int]). *)

From Stdlib Require Import ZArith Lia Bool List.
Import ListNotations.
Local Open Scope Z_scope.

(** ** siddefs.h *)

(** [reg4], [reg8], [reg12], [reg16] and [reg24] are all
    [unsigned int]. *)
Definition u32 (z : Z) : Z := z mod 2 ^ 32.

(** [unsigned short], the type of the table-lookup helper variables. *)
Definition u16 (z : Z) : Z := z mod 2 ^ 16.

(** [cycle_count] is [int] (two's complement). *)
Definition s32 (z : Z) : Z := (z + 2 ^ 31) mod 2 ^ 32 - 2 ^ 31.

(** An integer used as a condition: [if (x)]. *)
Definition truthy (z : Z) : bool := negb (z =? 0).

(** [enum chip_model { MOS6581, MOS8580 }]. *)
Inductive chip_model : Set := MOS6581 | MOS8580.

Definition is_6581 (m : chip_model) : bool :=
  match m with MOS6581 => true | MOS8580 => false end.

Definition is_8580 (m : chip_model) : bool :=
  match m with MOS6581 => false | MOS8580 => true end.

(** The three voices of [SIDOsc::voice]; the pointers [sync_source] and
    [sync_dest] of a generator are indices into that array. *)
Inductive voice_id : Set := V0 | V1 | V2.

Definition voice_eqb (a b : voice_id) : bool :=
  match a, b with
  | V0, V0 | V1, V1 | V2, V2 => true
  | _, _ => false
  end.

(** ** class WaveformGenerator: the data members

    [wave] points to one row of the static table [model_wave]; the row
    is kept as the function from index to sample. *)
Record WaveformGenerator : Type := mkWaveformGenerator {
  sync_source : voice_id;
  sync_dest : voice_id;
  accumulator : Z;
  msb_rising : bool;
  freq : Z;
  pw : Z;
  shift_register : Z;
  shift_register_reset : Z;
  shift_pipeline : Z;
  ring_msb_mask : Z;
  no_noise : Z;
  noise_output : Z;
  no_noise_or_noise_output : Z;
  no_pulse : Z;
  pulse_output : Z;
  waveform : Z;
  tri_saw_pipeline : Z;
  osc3 : Z;
  test : Z;
  ring_mod : Z;
  sync : Z;
  waveform_output : Z;
  floating_output_ttl : Z;
  sid_model : chip_model;
  wave : Z -> Z
}.

(** Assignment to one data member. *)

Definition with_sync_source (v : voice_id) (w : WaveformGenerator) : WaveformGenerator :=
  mkWaveformGenerator v (sync_dest w) (accumulator w) (msb_rising w) (freq w)
    (pw w) (shift_register w) (shift_register_reset w) (shift_pipeline w)
    (ring_msb_mask w) (no_noise w) (noise_output w)
    (no_noise_or_noise_output w) (no_pulse w) (pulse_output w) (waveform w)
    (tri_saw_pipeline w) (osc3 w) (test w) (ring_mod w) (sync w)
    (waveform_output w) (floating_output_ttl w) (sid_model w) (wave w).

Definition with_sync_dest (v : voice_id) (w : WaveformGenerator) : WaveformGenerator :=
  mkWaveformGenerator (sync_source w) v (accumulator w) (msb_rising w)
    (freq w) (pw w) (shift_register w) (shift_register_reset w)
    (shift_pipeline w) (ring_msb_mask w) (no_noise w) (noise_output w)
    (no_noise_or_noise_output w) (no_pulse w) (pulse_output w) (waveform w)
    (tri_saw_pipeline w) (osc3 w) (test w) (ring_mod w) (sync w)
    (waveform_output w) (floating_output_ttl w) (sid_model w) (wave w).

Definition with_accumulator (v : Z) (w : WaveformGenerator) : WaveformGenerator :=
  mkWaveformGenerator (sync_source w) (sync_dest w) v (msb_rising w) (freq w)
    (pw w) (shift_register w) (shift_register_reset w) (shift_pipeline w)
    (ring_msb_mask w) (no_noise w) (noise_output w)
    (no_noise_or_noise_output w) (no_pulse w) (pulse_output w) (waveform w)
    (tri_saw_pipeline w) (osc3 w) (test w) (ring_mod w) (sync w)
    (waveform_output w) (floating_output_ttl w) (sid_model w) (wave w).

Definition with_msb_rising (v : bool) (w : WaveformGenerator) : WaveformGenerator :=
  mkWaveformGenerator (sync_source w) (sync_dest w) (accumulator w) v (freq w)
    (pw w) (shift_register w) (shift_register_reset w) (shift_pipeline w)
    (ring_msb_mask w) (no_noise w) (noise_output w)
    (no_noise_or_noise_output w) (no_pulse w) (pulse_output w) (waveform w)
    (tri_saw_pipeline w) (osc3 w) (test w) (ring_mod w) (sync w)
    (waveform_output w) (floating_output_ttl w) (sid_model w) (wave w).

Definition with_freq (v : Z) (w : WaveformGenerator) : WaveformGenerator :=
  mkWaveformGenerator (sync_source w) (sync_dest w) (accumulator w)
    (msb_rising w) v (pw w) (shift_register w) (shift_register_reset w)
    (shift_pipeline w) (ring_msb_mask w) (no_noise w) (noise_output w)
    (no_noise_or_noise_output w) (no_pulse w) (pulse_output w) (waveform w)
    (tri_saw_pipeline w) (osc3 w) (test w) (ring_mod w) (sync w)
    (waveform_output w) (floating_output_ttl w) (sid_model w) (wave w).

Definition with_pw (v : Z) (w : WaveformGenerator) : WaveformGenerator :=
  mkWaveformGenerator (sync_source w) (sync_dest w) (accumulator w)
    (msb_rising w) (freq w) v (shift_register w) (shift_register_reset w)
    (shift_pipeline w) (ring_msb_mask w) (no_noise w) (noise_output w)
    (no_noise_or_noise_output w) (no_pulse w) (pulse_output w) (waveform w)
    (tri_saw_pipeline w) (osc3 w) (test w) (ring_mod w) (sync w)
    (waveform_output w) (floating_output_ttl w) (sid_model w) (wave w).

Definition with_shift_register (v : Z) (w : WaveformGenerator) : WaveformGenerator :=
  mkWaveformGenerator (sync_source w) (sync_dest w) (accumulator w)
    (msb_rising w) (freq w) (pw w) v (shift_register_reset w)
    (shift_pipeline w) (ring_msb_mask w) (no_noise w) (noise_output w)
    (no_noise_or_noise_output w) (no_pulse w) (pulse_output w) (waveform w)
    (tri_saw_pipeline w) (osc3 w) (test w) (ring_mod w) (sync w)
    (waveform_output w) (floating_output_ttl w) (sid_model w) (wave w).

Definition with_shift_register_reset (v : Z) (w : WaveformGenerator) : WaveformGenerator :=
  mkWaveformGenerator (sync_source w) (sync_dest w) (accumulator w)
    (msb_rising w) (freq w) (pw w) (shift_register w) v (shift_pipeline w)
    (ring_msb_mask w) (no_noise w) (noise_output w)
    (no_noise_or_noise_output w) (no_pulse w) (pulse_output w) (waveform w)
    (tri_saw_pipeline w) (osc3 w) (test w) (ring_mod w) (sync w)
    (waveform_output w) (floating_output_ttl w) (sid_model w) (wave w).

Definition with_shift_pipeline (v : Z) (w : WaveformGenerator) : WaveformGenerator :=
  mkWaveformGenerator (sync_source w) (sync_dest w) (accumulator w)
    (msb_rising w) (freq w) (pw w) (shift_register w) (shift_register_reset w)
    v (ring_msb_mask w) (no_noise w) (noise_output w)
    (no_noise_or_noise_output w) (no_pulse w) (pulse_output w) (waveform w)
    (tri_saw_pipeline w) (osc3 w) (test w) (ring_mod w) (sync w)
    (waveform_output w) (floating_output_ttl w) (sid_model w) (wave w).

Definition with_ring_msb_mask (v : Z) (w : WaveformGenerator) : WaveformGenerator :=
  mkWaveformGenerator (sync_source w) (sync_dest w) (accumulator w)
    (msb_rising w) (freq w) (pw w) (shift_register w) (shift_register_reset w)
    (shift_pipeline w) v (no_noise w) (noise_output w)
    (no_noise_or_noise_output w) (no_pulse w) (pulse_output w) (waveform w)
    (tri_saw_pipeline w) (osc3 w) (test w) (ring_mod w) (sync w)
    (waveform_output w) (floating_output_ttl w) (sid_model w) (wave w).

Definition with_no_noise (v : Z) (w : WaveformGenerator) : WaveformGenerator :=
  mkWaveformGenerator (sync_source w) (sync_dest w) (accumulator w)
    (msb_rising w) (freq w) (pw w) (shift_register w) (shift_register_reset w)
    (shift_pipeline w) (ring_msb_mask w) v (noise_output w)
    (no_noise_or_noise_output w) (no_pulse w) (pulse_output w) (waveform w)
    (tri_saw_pipeline w) (osc3 w) (test w) (ring_mod w) (sync w)
    (waveform_output w) (floating_output_ttl w) (sid_model w) (wave w).

Definition with_noise_output (v : Z) (w : WaveformGenerator) : WaveformGenerator :=
  mkWaveformGenerator (sync_source w) (sync_dest w) (accumulator w)
    (msb_rising w) (freq w) (pw w) (shift_register w) (shift_register_reset w)
    (shift_pipeline w) (ring_msb_mask w) (no_noise w) v
    (no_noise_or_noise_output w) (no_pulse w) (pulse_output w) (waveform w)
    (tri_saw_pipeline w) (osc3 w) (test w) (ring_mod w) (sync w)
    (waveform_output w) (floating_output_ttl w) (sid_model w) (wave w).

Definition with_no_noise_or_noise_output (v : Z) (w : WaveformGenerator) : WaveformGenerator :=
  mkWaveformGenerator (sync_source w) (sync_dest w) (accumulator w)
    (msb_rising w) (freq w) (pw w) (shift_register w) (shift_register_reset w)
    (shift_pipeline w) (ring_msb_mask w) (no_noise w) (noise_output w) v
    (no_pulse w) (pulse_output w) (waveform w) (tri_saw_pipeline w) (osc3 w)
    (test w) (ring_mod w) (sync w) (waveform_output w) (floating_output_ttl w)
    (sid_model w) (wave w).

Definition with_no_pulse (v : Z) (w : WaveformGenerator) : WaveformGenerator :=
  mkWaveformGenerator (sync_source w) (sync_dest w) (accumulator w)
    (msb_rising w) (freq w) (pw w) (shift_register w) (shift_register_reset w)
    (shift_pipeline w) (ring_msb_mask w) (no_noise w) (noise_output w)
    (no_noise_or_noise_output w) v (pulse_output w) (waveform w)
    (tri_saw_pipeline w) (osc3 w) (test w) (ring_mod w) (sync w)
    (waveform_output w) (floating_output_ttl w) (sid_model w) (wave w).

Definition with_pulse_output (v : Z) (w : WaveformGenerator) : WaveformGenerator :=
  mkWaveformGenerator (sync_source w) (sync_dest w) (accumulator w)
    (msb_rising w) (freq w) (pw w) (shift_register w) (shift_register_reset w)
    (shift_pipeline w) (ring_msb_mask w) (no_noise w) (noise_output w)
    (no_noise_or_noise_output w) (no_pulse w) v (waveform w)
    (tri_saw_pipeline w) (osc3 w) (test w) (ring_mod w) (sync w)
    (waveform_output w) (floating_output_ttl w) (sid_model w) (wave w).

Definition with_waveform (v : Z) (w : WaveformGenerator) : WaveformGenerator :=
  mkWaveformGenerator (sync_source w) (sync_dest w) (accumulator w)
    (msb_rising w) (freq w) (pw w) (shift_register w) (shift_register_reset w)
    (shift_pipeline w) (ring_msb_mask w) (no_noise w) (noise_output w)
    (no_noise_or_noise_output w) (no_pulse w) (pulse_output w) v
    (tri_saw_pipeline w) (osc3 w) (test w) (ring_mod w) (sync w)
    (waveform_output w) (floating_output_ttl w) (sid_model w) (wave w).

Definition with_tri_saw_pipeline (v : Z) (w : WaveformGenerator) : WaveformGenerator :=
  mkWaveformGenerator (sync_source w) (sync_dest w) (accumulator w)
    (msb_rising w) (freq w) (pw w) (shift_register w) (shift_register_reset w)
    (shift_pipeline w) (ring_msb_mask w) (no_noise w) (noise_output w)
    (no_noise_or_noise_output w) (no_pulse w) (pulse_output w) (waveform w) v
    (osc3 w) (test w) (ring_mod w) (sync w) (waveform_output w)
    (floating_output_ttl w) (sid_model w) (wave w).

Definition with_osc3 (v : Z) (w : WaveformGenerator) : WaveformGenerator :=
  mkWaveformGenerator (sync_source w) (sync_dest w) (accumulator w)
    (msb_rising w) (freq w) (pw w) (shift_register w) (shift_register_reset w)
    (shift_pipeline w) (ring_msb_mask w) (no_noise w) (noise_output w)
    (no_noise_or_noise_output w) (no_pulse w) (pulse_output w) (waveform w)
    (tri_saw_pipeline w) v (test w) (ring_mod w) (sync w) (waveform_output w)
    (floating_output_ttl w) (sid_model w) (wave w).

Definition with_test (v : Z) (w : WaveformGenerator) : WaveformGenerator :=
  mkWaveformGenerator (sync_source w) (sync_dest w) (accumulator w)
    (msb_rising w) (freq w) (pw w) (shift_register w) (shift_register_reset w)
    (shift_pipeline w) (ring_msb_mask w) (no_noise w) (noise_output w)
    (no_noise_or_noise_output w) (no_pulse w) (pulse_output w) (waveform w)
    (tri_saw_pipeline w) (osc3 w) v (ring_mod w) (sync w) (waveform_output w)
    (floating_output_ttl w) (sid_model w) (wave w).

Definition with_ring_mod (v : Z) (w : WaveformGenerator) : WaveformGenerator :=
  mkWaveformGenerator (sync_source w) (sync_dest w) (accumulator w)
    (msb_rising w) (freq w) (pw w) (shift_register w) (shift_register_reset w)
    (shift_pipeline w) (ring_msb_mask w) (no_noise w) (noise_output w)
    (no_noise_or_noise_output w) (no_pulse w) (pulse_output w) (waveform w)
    (tri_saw_pipeline w) (osc3 w) (test w) v (sync w) (waveform_output w)
    (floating_output_ttl w) (sid_model w) (wave w).

Definition with_sync (v : Z) (w : WaveformGenerator) : WaveformGenerator :=
  mkWaveformGenerator (sync_source w) (sync_dest w) (accumulator w)
    (msb_rising w) (freq w) (pw w) (shift_register w) (shift_register_reset w)
    (shift_pipeline w) (ring_msb_mask w) (no_noise w) (noise_output w)
    (no_noise_or_noise_output w) (no_pulse w) (pulse_output w) (waveform w)
    (tri_saw_pipeline w) (osc3 w) (test w) (ring_mod w) v (waveform_output w)
    (floating_output_ttl w) (sid_model w) (wave w).

Definition with_waveform_output (v : Z) (w : WaveformGenerator) : WaveformGenerator :=
  mkWaveformGenerator (sync_source w) (sync_dest w) (accumulator w)
    (msb_rising w) (freq w) (pw w) (shift_register w) (shift_register_reset w)
    (shift_pipeline w) (ring_msb_mask w) (no_noise w) (noise_output w)
    (no_noise_or_noise_output w) (no_pulse w) (pulse_output w) (waveform w)
    (tri_saw_pipeline w) (osc3 w) (test w) (ring_mod w) (sync w) v
    (floating_output_ttl w) (sid_model w) (wave w).

Definition with_floating_output_ttl (v : Z) (w : WaveformGenerator) : WaveformGenerator :=
  mkWaveformGenerator (sync_source w) (sync_dest w) (accumulator w)
    (msb_rising w) (freq w) (pw w) (shift_register w) (shift_register_reset w)
    (shift_pipeline w) (ring_msb_mask w) (no_noise w) (noise_output w)
    (no_noise_or_noise_output w) (no_pulse w) (pulse_output w) (waveform w)
    (tri_saw_pipeline w) (osc3 w) (test w) (ring_mod w) (sync w)
    (waveform_output w) v (sid_model w) (wave w).

Definition with_sid_model (v : chip_model) (w : WaveformGenerator) : WaveformGenerator :=
  mkWaveformGenerator (sync_source w) (sync_dest w) (accumulator w)
    (msb_rising w) (freq w) (pw w) (shift_register w) (shift_register_reset w)
    (shift_pipeline w) (ring_msb_mask w) (no_noise w) (noise_output w)
    (no_noise_or_noise_output w) (no_pulse w) (pulse_output w) (waveform w)
    (tri_saw_pipeline w) (osc3 w) (test w) (ring_mod w) (sync w)
    (waveform_output w) (floating_output_ttl w) v (wave w).

Definition with_wave (v : Z -> Z) (w : WaveformGenerator) : WaveformGenerator :=
  mkWaveformGenerator (sync_source w) (sync_dest w) (accumulator w)
    (msb_rising w) (freq w) (pw w) (shift_register w) (shift_register_reset w)
    (shift_pipeline w) (ring_msb_mask w) (no_noise w) (noise_output w)
    (no_noise_or_noise_output w) (no_pulse w) (pulse_output w) (waveform w)
    (tri_saw_pipeline w) (osc3 w) (test w) (ring_mod w) (sync w)
    (waveform_output w) (floating_output_ttl w) (sid_model w) v.


(** ** The noise shift register *)

(** [WaveformGenerator::set_noise_output]. *)
Definition set_noise_output (w : WaveformGenerator) : WaveformGenerator :=
  let sr := shift_register w in
  let w1 :=
    with_noise_output
      (u16
         (Z.lor (Z.shiftr (Z.land sr 0x100000) 9)
         (Z.lor (Z.shiftr (Z.land sr 0x040000) 8)
         (Z.lor (Z.shiftr (Z.land sr 0x004000) 5)
         (Z.lor (Z.shiftr (Z.land sr 0x000800) 3)
         (Z.lor (Z.shiftr (Z.land sr 0x000200) 2)
         (Z.lor (Z.shiftl (Z.land sr 0x000020) 1)
         (Z.lor (Z.shiftl (Z.land sr 0x000004) 3)
                (Z.shiftl (Z.land sr 0x000001) 4))))))))) w in
  with_no_noise_or_noise_output
    (u16 (Z.lor (no_noise w1) (noise_output w1))) w1.

(** [WaveformGenerator::clock_shift_register]. *)
Definition clock_shift_register (w : WaveformGenerator) : WaveformGenerator :=
  let sr := shift_register w in
  let bit0 := Z.land (Z.lxor (Z.shiftr sr 22) (Z.shiftr sr 17)) 0x1 in
  set_noise_output
    (with_shift_register
       (Z.land (Z.lor (u32 (Z.shiftl sr 1)) bit0) 0x7fffff) w).

(** The taps [(1<<20)|(1<<18)|(1<<14)|(1<<11)|(1<<9)|(1<<5)|(1<<2)|(1<<0)]
    of [write_shift_register]. *)
Definition noise_taps : Z :=
  Z.lor (Z.shiftl 1 20) (Z.lor (Z.shiftl 1 18) (Z.lor (Z.shiftl 1 14)
  (Z.lor (Z.shiftl 1 11) (Z.lor (Z.shiftl 1 9) (Z.lor (Z.shiftl 1 5)
  (Z.lor (Z.shiftl 1 2) (Z.shiftl 1 0))))))).

(** The right-hand side of [shift_register &= ...]: the complemented taps
    (an [int], converted to [unsigned int]) or'ed with the waveform output
    bits 11..4 moved to their tap positions. *)
Definition write_mask (wo : Z) : Z :=
  Z.lor (u32 (Z.lnot noise_taps))
  (Z.lor (Z.shiftl (Z.land wo 0x800) 9)
  (Z.lor (Z.shiftl (Z.land wo 0x400) 8)
  (Z.lor (Z.shiftl (Z.land wo 0x200) 5)
  (Z.lor (Z.shiftl (Z.land wo 0x100) 3)
  (Z.lor (Z.shiftl (Z.land wo 0x080) 2)
  (Z.lor (Z.shiftr (Z.land wo 0x040) 1)
  (Z.lor (Z.shiftr (Z.land wo 0x020) 3)
         (Z.shiftr (Z.land wo 0x010) 4)))))))).

(** [WaveformGenerator::write_shift_register]. *)
Definition write_shift_register (w : WaveformGenerator) : WaveformGenerator :=
  let w1 :=
    with_shift_register
      (Z.land (shift_register w) (write_mask (waveform_output w))) w in
  let w2 :=
    with_noise_output
      (u16 (Z.land (noise_output w1) (waveform_output w1))) w1 in
  with_no_noise_or_noise_output
    (u16 (Z.lor (no_noise w2) (noise_output w2))) w2.

(** [WaveformGenerator::reset_shift_register]. *)
Definition reset_shift_register (w : WaveformGenerator) : WaveformGenerator :=
  set_noise_output
    (with_shift_register_reset 0 (with_shift_register 0x7fffff w)).

(** ** Clocking *)

(** [WaveformGenerator::clock()], one cycle. *)
Definition clock (w : WaveformGenerator) : WaveformGenerator :=
  if truthy (test w) then
    let w1 :=
      if truthy (shift_register_reset w) then
        let w' :=
          with_shift_register_reset (s32 (shift_register_reset w - 1)) w in
        if negb (truthy (shift_register_reset w'))
        then reset_shift_register w' else w'
      else w in
    with_pulse_output 0xfff w1
  else
    let accumulator_next :=
      Z.land (u32 (accumulator w + freq w)) 0xffffff in
    let accumulator_bits_set :=
      Z.land (u32 (Z.lnot (accumulator w))) accumulator_next in
    let w1 := with_accumulator accumulator_next w in
    let w2 :=
      with_msb_rising (truthy (Z.land accumulator_bits_set 0x800000)) w1 in
    if truthy (Z.land accumulator_bits_set 0x080000) then
      with_shift_pipeline 2 w2
    else if truthy (shift_pipeline w2) then
      let w3 := with_shift_pipeline (s32 (shift_pipeline w2 - 1)) w2 in
      if negb (truthy (shift_pipeline w3))
      then clock_shift_register w3 else w3
    else w2.

(** The [while (delta_accumulator)] loop of [clock(cycle_count)].  It
    leaves the accumulator alone and shifts the noise register once per
    counted rise of accumulator bit 19.  [fuel] bounds the number of
    evaluations of the loop condition; [None] means the bound was too
    small. *)
Fixpoint shift_loop (fuel : nat) (delta_accumulator shift_period : Z)
    (w : WaveformGenerator) : option WaveformGenerator :=
  match fuel with
  | O => None
  | S fuel' =>
    if truthy delta_accumulator then
      if delta_accumulator <? shift_period then
        let shift_period := delta_accumulator in
        let before :=
          truthy (Z.land (u32 (accumulator w - shift_period)) 0x080000) in
        let now := truthy (Z.land (accumulator w) 0x080000) in
        if (if shift_period <=? 0x080000
            then before || negb now
            else before && negb now)
        then Some w
        else
          shift_loop fuel' (u32 (delta_accumulator - shift_period))
            shift_period (clock_shift_register w)
      else
        shift_loop fuel' (u32 (delta_accumulator - shift_period))
          shift_period (clock_shift_register w)
    else Some w
  end.

(** Evaluations of the loop condition that [shift_loop] can need: one per
    whole period of 2^20 in [delta_accumulator], one for the rest, one to
    leave. *)
Definition shift_loop_fuel (delta_accumulator : Z) : nat :=
  Z.to_nat (delta_accumulator / 0x100000 + 2).

(** [WaveformGenerator::clock(cycle_count delta_t)]. *)
Definition clock_delta (delta_t : Z) (w : WaveformGenerator)
    : option WaveformGenerator :=
  if truthy (test w) then
    let w1 :=
      if truthy (shift_register_reset w) then
        let w' :=
          with_shift_register_reset
            (s32 (shift_register_reset w - delta_t)) w in
        if shift_register_reset w' <=? 0
        then reset_shift_register w' else w'
      else w in
    Some (with_pulse_output 0xfff w1)
  else
    let delta_accumulator := u32 (delta_t * freq w) in
    let accumulator_next :=
      Z.land (u32 (accumulator w + delta_accumulator)) 0xffffff in
    let accumulator_bits_set :=
      Z.land (u32 (Z.lnot (accumulator w))) accumulator_next in
    let w1 := with_accumulator accumulator_next w in
    let w2 :=
      with_msb_rising (truthy (Z.land accumulator_bits_set 0x800000)) w1 in
    match shift_loop (shift_loop_fuel delta_accumulator)
            delta_accumulator 0x100000 w2 with
    | None => None
    | Some w3 =>
      Some (with_pulse_output
              (if pw w3 <=? Z.shiftr (accumulator w3) 12
               then 0xfff else 0x000) w3)
    end.

(** [n] single-cycle [clock()] calls in a row. *)
Fixpoint clock_n (n : nat) (w : WaveformGenerator) : WaveformGenerator :=
  match n with
  | O => w
  | S n' => clock (clock_n n' w)
  end.

(** ** Waveform output *)

(** [noise_pulse6581] and [noise_pulse8580]. *)
Definition noise_pulse6581 (noise : Z) : Z :=
  if noise <? 0xf00 then 0x000
  else Z.land (Z.land noise (u32 (Z.shiftl noise 1))) (u32 (Z.shiftl noise 2)).

Definition noise_pulse8580 (noise : Z) : Z :=
  if noise <? 0xfc0 then Z.land noise (u32 (Z.shiftl noise 1)) else 0xfc0.

(** The table index [ix] of [set_waveform_output]; [source_accumulator]
    is [sync_source->accumulator]. *)
Definition wave_index (source_accumulator : Z) (w : WaveformGenerator) : Z :=
  Z.shiftr
    (Z.lxor (accumulator w)
       (Z.land (u32 (Z.lnot source_accumulator)) (ring_msb_mask w))) 12.

(** [wave[ix] & (no_pulse | pulse_output) & no_noise_or_noise_output]. *)
Definition wave_lookup (source_accumulator : Z) (w : WaveformGenerator) : Z :=
  Z.land
    (Z.land (wave w (wave_index source_accumulator w))
       (Z.lor (no_pulse w) (pulse_output w)))
    (no_noise_or_noise_output w).

(** The condition under which the 6581 lets a combined waveform pull the
    accumulator MSB low. *)
Definition drives_msb (w : WaveformGenerator) : bool :=
  truthy (Z.land (waveform w) 0x2) && truthy (Z.land (waveform w) 0xd)
  && is_6581 (sid_model w).

(** [-((accumulator >> 12) >= pw) & 0xfff], stored in an
    [unsigned short]. *)
Definition pulse_level (w : WaveformGenerator) : Z :=
  u16 (Z.land (- Z.b2z (pw w <=? Z.shiftr (accumulator w) 12)) 0xfff).

(** [WaveformGenerator::set_waveform_output()], one cycle
    ([RESID_FPGA_CODE] is 0).  Members the function never assigns
    ([waveform], [sid_model], [test], [shift_pipeline], the masks) are
    read from the state on entry; so are [accumulator], [pulse_output] and
    [tri_saw_pipeline] where the read comes before the one assignment to
    them. *)
Definition set_waveform_output (source_accumulator : Z)
    (w : WaveformGenerator) : WaveformGenerator :=
  let w' :=
    if truthy (waveform w) then
      let ix := wave_index source_accumulator w in
      let looked_up := wave_lookup source_accumulator w in
      let output :=
        if Z.land (waveform w) 0xc =? 0xc then
          if is_6581 (sid_model w)
          then noise_pulse6581 looked_up else noise_pulse8580 looked_up
        else looked_up in
      let w1 := with_waveform_output output w in
      let w2 :=
        if truthy (Z.land (waveform w) 3) && is_8580 (sid_model w) then
          with_tri_saw_pipeline (wave w ix)
            (with_osc3
               (Z.land
                  (Z.land (tri_saw_pipeline w)
                     (Z.lor (no_pulse w) (pulse_output w)))
                  (no_noise_or_noise_output w)) w1)
        else with_osc3 output w1 in
      let w3 :=
        if drives_msb w then
          with_accumulator
            (Z.land (accumulator w)
               (Z.lor (u32 (Z.shiftl output 12)) 0x7fffff)) w2
        else w2 in
      if (0x8 <? waveform w) && negb (truthy (test w))
         && negb (shift_pipeline w =? 1)
      then write_shift_register w3 else w3
    else
      if truthy (floating_output_ttl w) then
        let w1 :=
          with_floating_output_ttl (s32 (floating_output_ttl w - 1)) w in
        if negb (truthy (floating_output_ttl w1))
        then with_osc3 0 (with_waveform_output 0 w1) else w1
      else w in
  with_pulse_output (pulse_level w') w'.

(** [WaveformGenerator::set_waveform_output(cycle_count delta_t)]. *)
Definition set_waveform_output_delta (delta_t source_accumulator : Z)
    (w : WaveformGenerator) : WaveformGenerator :=
  if truthy (waveform w) then
    let output := wave_lookup source_accumulator w in
    let w1 := with_osc3 output (with_waveform_output output w) in
    let w2 :=
      if drives_msb w then
        with_accumulator
          (Z.land (accumulator w)
             (Z.lor (u32 (Z.shiftl output 12)) 0x7fffff)) w1
      else w1 in
    if (0x8 <? waveform w) && negb (truthy (test w))
    then write_shift_register w2 else w2
  else
    if truthy (floating_output_ttl w) then
      let w1 :=
        with_floating_output_ttl (s32 (floating_output_ttl w - delta_t)) w in
      if floating_output_ttl w1 <=? 0
      then with_osc3 0 (with_waveform_output 0 (with_floating_output_ttl 0 w1))
      else w1
    else w.

(** ** The voices of SIDOsc *)

(** [SIDOsc::voice], seen through the [wave] member of each voice. *)
Definition SID : Type := voice_id -> WaveformGenerator.

Definition store (a : voice_id) (w : WaveformGenerator) (s : SID) : SID :=
  fun b => if voice_eqb b a then w else s b.

(** [voice[a].wave.clock()]. *)
Definition clock_voice (a : voice_id) (s : SID) : SID :=
  store a (clock (s a)) s.

(** [WaveformGenerator::synchronize], called on voice [a]: the write goes
    through the pointer [sync_dest], the reads through [sync_dest] and
    [sync_source]. *)
Definition synchronize (a : voice_id) (s : SID) : SID :=
  let this := s a in
  if msb_rising this && truthy (sync (s (sync_dest this)))
     && negb (truthy (sync this) && msb_rising (s (sync_source this)))
  then store (sync_dest this) (with_accumulator 0 (s (sync_dest this))) s
  else s.

(** [voice[a].wave.set_waveform_output()]. *)
Definition set_waveform_output_voice (a : voice_id) (s : SID) : SID :=
  store a
    (set_waveform_output (accumulator (s (sync_source (s a)))) (s a)) s.

(** The three [for (int v = 0; v < 3; v++)] loops of [SIDOsc::next]. *)
Definition clock_all (s : SID) : SID :=
  clock_voice V2 (clock_voice V1 (clock_voice V0 s)).

Definition synchronize_all (s : SID) : SID :=
  synchronize V2 (synchronize V1 (synchronize V0 s)).

Definition set_waveform_output_all (s : SID) : SID :=
  set_waveform_output_voice V2
    (set_waveform_output_voice V1 (set_waveform_output_voice V0 s)).

(** One pass of the sample loop of [SIDOsc::next], up to the outputs. *)
Definition next_sample (s : SID) : SID :=
  set_waveform_output_all (synchronize_all (clock_all s)).

(** [n] passes. *)
Fixpoint run (n : nat) (s : SID) : SID :=
  match n with
  | O => s
  | S n' => run n' (next_sample s)
  end.

(** ** Wiring and concrete states *)

(** Modelled from the spec: [WaveformGenerator::set_sync_source] lives in
    wave.cc, which is not among the sources at hand.  "Sync topology is
    wired once, externally, by passing each generator a reference to its
    sync source"; each generator has "exactly one other generator as its
    sync source and exactly one other as its sync destination", so the
    source's destination becomes the generator that observes it. *)
Definition set_sync_source (a source : voice_id) (s : SID) : SID :=
  let s1 := store a (with_sync_source source (s a)) s in
  store source (with_sync_dest a (s1 source)) s1.

(** The three calls in the constructor [SIDOsc::SIDOsc]. *)
Definition link_voices (s : SID) : SID :=
  set_sync_source V2 V1 (set_sync_source V1 V0 (set_sync_source V0 V2 s)).

(** A generator at rest: registers zero, noise register all ones with its
    output bits, no waveform selected and so nothing masked by the pulse
    or noise helpers, a table row of all-ones samples. *)
Definition at_rest : WaveformGenerator :=
  mkWaveformGenerator V0 V0 0 false 0 0 0x7fffff 0 0 0 0xfff 0xff0 0xfff
    0xfff 0 0 0 0 0 0 0 0 0 MOS6581 (fun _ => 0xfff).

(** Repeated write-backs into the shift register, each with the waveform
    output of its cycle. *)
Fixpoint write_backs (outputs : list Z) (w : WaveformGenerator)
    : WaveformGenerator :=
  match outputs with
  | [] => w
  | o :: rest => write_backs rest (write_shift_register (with_waveform_output o w))
  end.

(** [a] has no bit set that [b] has clear. *)
Definition submask (a b : Z) : Prop := Z.land a b = a.

(** A running oscillator close to the wrap of its accumulator. *)
Definition running_voice : WaveformGenerator :=
  with_freq 0x1000 (with_accumulator 0xfff800 at_rest).

(** Voice 0 has just seen its MSB rise; voice 1, which it syncs, has the
    sync bit of its control register set. *)
Definition sync_ring : SID :=
  link_voices
    (fun a =>
       match a with
       | V0 => with_msb_rising true (with_accumulator 0x800123 running_voice)
       | V1 => with_sync 0x02 (with_accumulator 0x123456 running_voice)
       | V2 => at_rest
       end).

(** ** One voice seen from inside the sample loop

    Between its [clock()] and its [set_waveform_output()] a voice can only
    be touched by the [synchronize()] of the voice it is the destination
    of, which zeroes its accumulator or leaves it alone; its
    [set_waveform_output()] reads the accumulator of its sync source. *)
Definition cycle (synced : bool) (source_accumulator : Z)
    (w : WaveformGenerator) : WaveformGenerator :=
  set_waveform_output source_accumulator
    (if synced then with_accumulator 0 (clock w) else clock w).

(** Successive cycles of one voice, each with what the rest of the ring
    does to it and shows it in that cycle. *)
Fixpoint cycles (env : list (bool * Z)) (w : WaveformGenerator)
    : WaveformGenerator :=
  match env with
  | [] => w
  | (synced, source_accumulator) :: rest =>
    cycles rest (cycle synced source_accumulator w)
  end.

(** The pulse level as the comparator defines it. *)
Definition comparator (w : WaveformGenerator) : Z :=
  if pw w <=? Z.shiftr (accumulator w) 12 then 0xfff else 0x000.

(** The register widths of the data model: a 24-bit accumulator and a
    23-bit shift register. *)
Definition in_range (w : WaveformGenerator) : Prop :=
  0 <= accumulator w < 2 ^ 24 /\ 0 <= shift_register w < 2 ^ 23.

(** Modelled from the spec: the control register write is in wave.cc, not
    among the sources at hand, and so is the static table [model_wave].
    With sawtooth alone selected (selector 2) no ring modulation applies
    ("only when both ring-mod and the appropriate waveform bits are
    active"), the pulse and noise helpers mask nothing, the cached
    [no_noise_or_noise_output] is [no_noise | noise_output] as every
    writer of it in wave.h keeps it, and [wave] points to the sawtooth
    row, whose sample is "identical to the upper 12 bits of the
    accumulator", i.e. equal to its index. *)
Definition sawtooth_selected (w : WaveformGenerator) : Prop :=
  waveform w = 0x2
  /\ ring_msb_mask w = 0
  /\ no_pulse w = 0xfff
  /\ no_noise w = 0xfff
  /\ no_noise_or_noise_output w = u16 (Z.lor (no_noise w) (noise_output w))
  /\ forall i, 0 <= i < 4096 -> wave w i = i.

(** A voice playing a sawtooth. *)
Definition sawtooth_voice : WaveformGenerator :=
  with_waveform 0x2 (with_wave (fun i => i) running_voice).

(** Voice 0 has no waveform selected and three cycles of floating output
    left on a DAC input of 0x800. *)
Definition floating_ring : SID :=
  link_voices
    (fun a =>
       match a with
       | V0 =>
         with_floating_output_ttl 3
           (with_osc3 0x800 (with_waveform_output 0x800 at_rest))
       | _ => sawtooth_voice
       end).

(** Voice 0 is held by the test bit with its MSB-rising flag still up from
    its last running cycle; voice 1, which it syncs, is running with the
    sync bit set. *)
Definition frozen_ring : SID :=
  link_voices
    (fun a =>
       match a with
       | V0 => with_test 0x08 (with_msb_rising true at_rest)
       | V1 => with_sync 0x02 running_voice
       | V2 => at_rest
       end).

(** A voice held by the test bit with the pulse waveform selected (the
    pulse helper masks, the table row is all ones) and a pulse width
    above the zeroed accumulator. *)
Definition held_pulse_voice : WaveformGenerator :=
  with_test 0x08
    (with_waveform 0x4 (with_no_pulse 0 (with_pw 0x800 at_rest))).

(** The same voice running under delta clocking. *)
Definition delta_pulse_voice : WaveformGenerator :=
  with_freq 0x1000
    (with_waveform 0x4 (with_no_pulse 0 (with_pw 0x800 at_rest))).

(** Voice 0 is held by the test bit, its accumulator at the zero the
    test bit leaves; the other two voices are running. *)
Definition held_ring : SID :=
  link_voices
    (fun a =>
       match a with
       | V0 => held_pulse_voice
       | V1 => sawtooth_voice
       | V2 => running_voice
       end).

(** The members a [clock()] under the test bit can never assign. *)
Definition held_clock_frame (w w' : WaveformGenerator) : Prop :=
  sync_source w' = sync_source w /\ sync_dest w' = sync_dest w
  /\ accumulator w' = accumulator w /\ msb_rising w' = msb_rising w
  /\ freq w' = freq w /\ pw w' = pw w
  /\ shift_pipeline w' = shift_pipeline w
  /\ ring_msb_mask w' = ring_msb_mask w /\ no_noise w' = no_noise w
  /\ no_pulse w' = no_pulse w /\ waveform w' = waveform w
  /\ tri_saw_pipeline w' = tri_saw_pipeline w /\ osc3 w' = osc3 w
  /\ test w' = test w /\ ring_mod w' = ring_mod w /\ sync w' = sync w
  /\ waveform_output w' = waveform_output w
  /\ floating_output_ttl w' = floating_output_ttl w
  /\ sid_model w' = sid_model w /\ wave w' = wave w.

(** The reset countdown of the shift register reaches zero in this
    [clock()]. *)
Definition countdown_completes (w : WaveformGenerator) : bool :=
  truthy (shift_register_reset w)
  && negb (truthy (s32 (shift_register_reset w - 1))).

(** ** Predicates used by the further properties *)

(** Accumulator bit [i] goes from 0 to 1 in the [clock()] taken from this
    state. *)
Definition bit_rises (i : Z) (w : WaveformGenerator) : bool :=
  negb (Z.testbit (accumulator w) i) && Z.testbit (accumulator (clock w)) i.

(** The cached noise output and its or with [no_noise] are what
    [set_noise_output] would compute from the shift register. *)
Definition noise_cached (w : WaveformGenerator) : Prop :=
  noise_output w = noise_output (set_noise_output w)
  /\ no_noise_or_noise_output w
     = no_noise_or_noise_output (set_noise_output w).

(** The 12-bit mask [no_noise] and the cache built from it. *)
Definition masks_in_range (w : WaveformGenerator) : Prop :=
  0 <= no_noise w < 4096
  /\ 0 <= noise_output w < 4096
  /\ no_noise_or_noise_output w = u16 (Z.lor (no_noise w) (noise_output w)).

(** The DAC input and OSC3 are 12-bit values. *)
Definition outputs_in_range (w : WaveformGenerator) : Prop :=
  0 <= waveform_output w < 4096 /\ 0 <= osc3 w < 4096.

(** The condition under which [synchronize()] on voice [a] writes. *)
Definition sync_fires (a : voice_id) (s : SID) : bool :=
  msb_rising (s a) && truthy (sync (s (sync_dest (s a))))
  && negb (truthy (sync (s a)) && msb_rising (s (sync_source (s a)))).

(** A voice about to see accumulator bit 19 rise, with a frequency low
    enough that it does not rise again in the two cycles after. *)
Definition noise_clock_voice : WaveformGenerator :=
  with_freq 0x1000 (with_accumulator 0x07f000 at_rest).

(** A voice held by the test bit with five cycles left of the shift
    register reset and a register that noise write-back has emptied. *)
Definition resetting_voice : WaveformGenerator :=
  with_test 0x08
    (with_shift_register_reset 5 (with_shift_register 0 at_rest)).

(** A ring-modulated triangle voice: the MSB mask is set. *)
Definition ring_mod_voice : WaveformGenerator :=
  with_ring_msb_mask 0x800000
    (with_waveform 0x1 (with_accumulator 0x923456 at_rest)).

(** An 8580 voice playing a sawtooth. *)
Definition sawtooth_8580_voice : WaveformGenerator :=
  with_sid_model MOS8580 sawtooth_voice.

(** A 6581 voice with sawtooth and triangle combined, an all-zero table
    row and the accumulator MSB set. *)
Definition combined_voice : WaveformGenerator :=
  with_waveform 0x3
    (with_wave (fun _ => 0) (with_accumulator 0x923456 at_rest)).

(** What the DAC lookup [model_dac[sid_model][waveform_output]] and the
    OSC3 read rely on. *)
Definition well_masked (w : WaveformGenerator) : Prop :=
  masks_in_range w /\ outputs_in_range w.

(** Some voice's [synchronize()] writes to voice [c] in state [s]. *)
Definition sync_hits (c : voice_id) (s : SID) : bool :=
  (sync_fires V0 s && voice_eqb c (sync_dest (s V0)))
  || (sync_fires V1 s && voice_eqb c (sync_dest (s V1)))
  || (sync_fires V2 s && voice_eqb c (sync_dest (s V2))).

(** A running voice whose noise register has been emptied. *)
Definition silent_noise_voice : WaveformGenerator :=
  with_shift_register 0 (with_noise_output 0 noise_clock_voice).

(** A ring with that voice in it. *)
Definition silent_ring : SID :=
  link_voices
    (fun a =>
       match a with
       | V0 => silent_noise_voice
       | V1 => with_sync 0x02 running_voice
       | V2 => at_rest
       end).

(** ** A voice between the loops of one pass *)

(** The order in which each [for] loop of [SIDOsc::next] visits the
    voices. *)
Definition voice_ltb (a b : voice_id) : bool :=
  match a, b with
  | V0, V1 | V0, V2 | V1, V2 => true
  | _, _ => false
  end.

(** Voice [c] after the clock loop and the synchronize loop of a pass
    that starts in [s]: its own [clock()], then its accumulator zeroed if
    a hard sync hits it in the state the clocks leave. *)
Definition after_sync (s : SID) (c : voice_id) : WaveformGenerator :=
  if sync_hits c (clock_all s)
  then with_accumulator 0 (clock (s c)) else clock (s c).

(** The value of [sync_source->accumulator] that the
    [set_waveform_output()] of voice [b] reads in that pass: the sync
    source has already been through its own [set_waveform_output()] if
    the loop visits it before [b], and not yet otherwise. *)
Definition source_read (s : SID) (b : voice_id) : Z :=
  let source := sync_source (s b) in
  accumulator
    (if voice_ltb source b
     then next_sample s source else after_sync s source).

(** * Properties *)

(** ** Reading a data member after assignments *)

Ltac fields :=
  cbn [sync_source sync_dest accumulator msb_rising freq pw shift_register
       shift_register_reset shift_pipeline ring_msb_mask no_noise
       noise_output no_noise_or_noise_output no_pulse pulse_output waveform
       tri_saw_pipeline osc3 test ring_mod sync waveform_output
       floating_output_ttl sid_model wave
       with_sync_source with_sync_dest with_accumulator with_msb_rising
       with_freq with_pw with_shift_register with_shift_register_reset
       with_shift_pipeline with_ring_msb_mask with_no_noise with_noise_output
       with_no_noise_or_noise_output with_no_pulse with_pulse_output
       with_waveform with_tri_saw_pipeline with_osc3 with_test with_ring_mod
       with_sync with_waveform_output with_floating_output_ttl
       with_sid_model with_wave] in *.

Ltac split_ifs :=
  repeat match goal with
         | |- context [if ?b then _ else _] => destruct b eqn:?
         end.

(** ** Masks and wrap-around *)

Lemma truthy_0 : truthy 0 = false.
Proof. reflexivity. Qed.

Lemma truthy_true (z : Z) : z <> 0 -> truthy z = true.
Proof. intros H. unfold truthy. apply Z.eqb_neq in H. now rewrite H. Qed.

Lemma truthy_false (z : Z) : truthy z = false -> z = 0.
Proof.
  unfold truthy. intros H. apply negb_false_iff in H. now apply Z.eqb_eq.
Qed.

Lemma truthy_true_inv (z : Z) : truthy z = true -> z <> 0.
Proof.
  unfold truthy. intros H. apply negb_true_iff in H. now apply Z.eqb_neq.
Qed.

Lemma mask24 (x : Z) : Z.land (u32 x) 0xffffff = x mod 2 ^ 24.
Proof.
  unfold u32. change 0xffffff with (Z.ones 24).
  rewrite Z.land_ones by lia.
  change (2 ^ 32) with (2 ^ 24 * 2 ^ 8).
  rewrite Z.rem_mul_r by lia.
  rewrite Z.mul_comm, Z.mod_add by lia.
  apply Z.mod_mod. lia.
Qed.

Lemma u32_range (x : Z) : 0 <= u32 x < 2 ^ 32.
Proof. unfold u32. apply Z.mod_pos_bound. lia. Qed.

Lemma u32_small (x : Z) : 0 <= x < 2 ^ 32 -> u32 x = x.
Proof. intros H. unfold u32. now apply Z.mod_small. Qed.

Lemma u16_small (x : Z) : 0 <= x < 2 ^ 16 -> u16 x = x.
Proof. intros H. unfold u16. now apply Z.mod_small. Qed.

Lemma s32_small (x : Z) : - 2 ^ 31 <= x < 2 ^ 31 -> s32 x = x.
Proof. intros H. unfold s32. rewrite Z.mod_small; lia. Qed.

(** ** The noise register operations leave the phase alone *)

Lemma set_noise_output_accumulator w :
  accumulator (set_noise_output w) = accumulator w.
Proof. reflexivity. Qed.

Lemma clock_shift_register_accumulator w :
  accumulator (clock_shift_register w) = accumulator w.
Proof. reflexivity. Qed.

(** ** clock(), test bit clear *)

Lemma clock_running_accumulator w :
  test w = 0 ->
  accumulator (clock w) = (accumulator w + freq w) mod 2 ^ 24.
Proof.
  intros Ht. unfold clock. rewrite Ht, truthy_0.
  rewrite <- mask24.
  split_ifs; reflexivity.
Qed.

Lemma clock_test w : test (clock w) = test w.
Proof.
  unfold clock, reset_shift_register, clock_shift_register.
  split_ifs; reflexivity.
Qed.

Lemma clock_freq w : freq (clock w) = freq w.
Proof.
  unfold clock, reset_shift_register, clock_shift_register.
  split_ifs; reflexivity.
Qed.

Lemma clock_iter_running (n : nat) w :
  test w = 0 ->
  test (clock_n n w) = 0
  /\ freq (clock_n n w) = freq w
  /\ accumulator (clock_n (S n) w)
     = (accumulator w + Z.of_nat (S n) * freq w) mod 2 ^ 24.
Proof.
  intros Ht. induction n as [|n IH].
  - cbn [clock_n]. repeat split; trivial.
    rewrite clock_running_accumulator by assumption.
    f_equal. lia.
  - destruct IH as (IHt & IHf & IHa).
    assert (Ht' : test (clock_n (S n) w) = 0).
    { cbn [clock_n]. now rewrite clock_test. }
    assert (Hf' : freq (clock_n (S n) w) = freq w).
    { cbn [clock_n]. now rewrite clock_freq. }
    repeat split; trivial.
    change (clock_n (S (S n)) w)
      with (clock (clock_n (S n) w)).
    rewrite clock_running_accumulator by assumption.
    rewrite IHa, Hf'.
    rewrite Zplus_mod_idemp_l. f_equal. lia.
Qed.

(** ** The delta-clock loop ends within its bound *)

Lemma shift_loop_total (P : WaveformGenerator -> Prop) :
  (forall w, P w -> P (clock_shift_register w)) ->
  forall (fuel : nat) (d p : Z) (w : WaveformGenerator),
    0 <= d < 2 ^ 32 ->
    (p = 0x100000 /\ d / 0x100000 + 2 <= Z.of_nat fuel)
    \/ (d = 0 /\ 1 <= Z.of_nat fuel) ->
    P w ->
    exists w', shift_loop fuel d p w = Some w' /\ P w'.
Proof.
  intros HP fuel. induction fuel as [|fuel IH]; intros d p w Hd Hfuel Hw.
  - exfalso. destruct Hfuel as [[_ H]|[_ H]].
    + assert (0 <= d / 0x100000) by (apply Z.div_pos; lia). lia.
    + lia.
  - cbn [shift_loop].
    destruct (truthy d) eqn:Hnz.
    2:{ exists w. split; trivial. }
    apply truthy_true_inv in Hnz.
    destruct Hfuel as [[Hp Hf]|[H0 _]]; [|contradiction].
    subst p.
    destruct (d <? 0x100000) eqn:Hlt.
    + apply Z.ltb_lt in Hlt.
      match goal with
      | |- context [if ?c then Some w else _] => destruct c
      end.
      * exists w. split; trivial.
      * apply IH.
        -- rewrite Z.sub_diag. unfold u32. rewrite Z.mod_0_l; lia.
        -- right. rewrite Z.sub_diag. unfold u32. rewrite Z.mod_0_l by lia.
           rewrite Z.div_small in Hf by lia. split; lia.
        -- now apply HP.
    + apply Z.ltb_ge in Hlt.
      assert (Hu : u32 (d - 0x100000) = d - 0x100000)
        by (apply u32_small; lia).
      apply IH.
      * rewrite Hu. lia.
      * left. split; trivial. rewrite Hu.
        replace (d - 0x100000) with (d + (-1) * 0x100000) by lia.
        rewrite Z.div_add by lia. lia.
      * now apply HP.
Qed.

Lemma shift_loop_fuel_enough (d : Z) :
  0 <= d < 2 ^ 32 ->
  d / 0x100000 + 2 <= Z.of_nat (shift_loop_fuel d).
Proof.
  intros Hd. unfold shift_loop_fuel.
  assert (0 <= d / 0x100000) by (apply Z.div_pos; lia).
  rewrite Z2Nat.id; lia.
Qed.

(** [clock(delta_t)] always returns; with the test bit clear it leaves
    the accumulator at the masked sum. *)
Lemma clock_delta_running (delta_t : Z) w :
  test w = 0 ->
  exists w',
    clock_delta delta_t w = Some w'
    /\ accumulator w' = (accumulator w + delta_t * freq w) mod 2 ^ 24.
Proof.
  intros Ht. unfold clock_delta. rewrite Ht, truthy_0.
  set (d := u32 (delta_t * freq w)).
  set (w2 := with_msb_rising _ _).
  assert (Hd : 0 <= d < 2 ^ 32) by apply u32_range.
  destruct (shift_loop_total
              (fun w' => accumulator w' = accumulator w2)
              (fun w' H => H) (shift_loop_fuel d) d 0x100000 w2 Hd)
    as (w3 & Hloop & Hacc).
  - left. split; trivial. now apply shift_loop_fuel_enough.
  - reflexivity.
  - rewrite Hloop. eexists. split; [reflexivity|].
    fields. rewrite Hacc. subst w2. fields.
    rewrite mask24. subst d. unfold u32.
    change (2 ^ 32) with (2 ^ 24 * 2 ^ 8).
    rewrite <- (Zplus_mod_idemp_r _ (accumulator w)).
    rewrite Z.rem_mul_r by lia.
    rewrite (Z.mul_comm (2 ^ 24)), Z.mod_add by lia.
    rewrite Z.mod_mod by lia.
    now rewrite Zplus_mod_idemp_r.
Qed.

(** C1. Accumulator linearity: with the test bit clear, for every
    frequency register value, every starting accumulator value and every
    N >= 1, N single-cycle [clock()] calls leave the accumulator at
    (A + N*F) mod 2^24, and one delta [clock(N)] call from the same start
    returns and leaves the same accumulator. *)
Theorem accumulator_linearity (w : WaveformGenerator) (N : nat) :
  test w = 0 ->
  (1 <= N)%nat ->
  accumulator (clock_n N w)
  = (accumulator w + Z.of_nat N * freq w) mod 2 ^ 24
  /\ exists w',
       clock_delta (Z.of_nat N) w = Some w'
       /\ accumulator w' = accumulator (clock_n N w).
Proof.
  intros Ht HN.
  destruct N as [|n]; [lia|].
  destruct (clock_iter_running n w Ht) as (_ & _ & Hsingle).
  split; [exact Hsingle|].
  destruct (clock_delta_running (Z.of_nat (S n)) w Ht) as (w' & Hd & Ha).
  exists w'. split; [exact Hd|]. now rewrite Ha, Hsingle.
Qed.

Lemma accumulator_linearity_witness :
  accumulator (clock_n 3 running_voice)
  = (accumulator running_voice + Z.of_nat 3 * freq running_voice) mod 2 ^ 24
  /\ exists w',
       clock_delta (Z.of_nat 3) running_voice = Some w'
       /\ accumulator w' = accumulator (clock_n 3 running_voice).
Proof.
  apply (accumulator_linearity running_voice 3); [reflexivity | lia].
Defined.

(** ** Hard sync *)

Lemma store_same a w s : store a w s a = w.
Proof. unfold store. now destruct a. Qed.

Lemma store_other a b w s : b <> a -> store a w s b = s b.
Proof. unfold store. destruct a, b; simpl; congruence. Qed.

Lemma voice_eqb_eq a b : voice_eqb a b = true <-> a = b.
Proof. destruct a, b; simpl; split; congruence. Qed.

(** C2. Sync propagation: in any state of the voice ring (so also after
    all three generators have been clocked), if generator [a]'s MSB rose
    and its sync destination has the sync bit enabled, then
    [synchronize()] on [a] leaves the destination's accumulator at exactly
    0, except when [a]'s own sync bit is enabled and its own sync source's
    MSB rose too: then the destination's accumulator is unchanged. *)
Theorem sync_propagation (s : SID) (a : voice_id) :
  msb_rising (s a) = true ->
  sync (s (sync_dest (s a))) <> 0 ->
  (~ (sync (s a) <> 0 /\ msb_rising (s (sync_source (s a))) = true) ->
   accumulator (synchronize a s (sync_dest (s a))) = 0)
  /\ (sync (s a) <> 0 /\ msb_rising (s (sync_source (s a))) = true ->
      accumulator (synchronize a s (sync_dest (s a)))
      = accumulator (s (sync_dest (s a)))).
Proof.
  intros Hmsb Hsync. unfold synchronize.
  rewrite Hmsb, (truthy_true _ Hsync). cbn [andb].
  split.
  - intros Hno.
    destruct (truthy (sync (s a))) eqn:Hown;
      [destruct (msb_rising (s (sync_source (s a)))) eqn:Hsrc|];
      cbn [andb negb].
    + exfalso. apply Hno. split; trivial. now apply truthy_true_inv.
    + now rewrite store_same.
    + now rewrite store_same.
  - intros [Hown Hsrc].
    now rewrite (truthy_true _ Hown), Hsrc.
Qed.

Lemma sync_propagation_witness :
  msb_rising (sync_ring V0) = true
  /\ sync (sync_ring (sync_dest (sync_ring V0))) <> 0
  /\ accumulator (sync_ring (sync_dest (sync_ring V0))) = 0x123456
  /\ accumulator (synchronize V0 sync_ring (sync_dest (sync_ring V0))) = 0.
Proof.
  split; [reflexivity|]. split; [discriminate|]. split; [reflexivity|].
  apply (sync_propagation sync_ring V0); [reflexivity | discriminate |].
  intros [H _]. apply H. reflexivity.
Defined.

(** ** Write-back into the noise register *)

Lemma submask_refl a : submask a a.
Proof. apply Z.land_diag. Qed.

Lemma submask_land a m : submask (Z.land a m) a.
Proof.
  unfold submask.
  rewrite (Z.land_comm a m), <- Z.land_assoc, Z.land_diag. reflexivity.
Qed.

Lemma submask_trans a b c : submask a b -> submask b c -> submask a c.
Proof.
  unfold submask. intros Hab Hbc.
  rewrite <- Hab at 1. rewrite <- Z.land_assoc, Hbc. exact Hab.
Qed.

Lemma submask_testbit a b i :
  submask a b -> Z.testbit b i = false -> Z.testbit a i = false.
Proof.
  unfold submask. intros Hab Hb.
  rewrite <- Hab, Z.land_spec, Hb. apply andb_false_r.
Qed.

Lemma write_shift_register_submask w :
  submask (shift_register (write_shift_register w)) (shift_register w).
Proof. unfold write_shift_register. fields. apply submask_land. Qed.

Lemma write_backs_submask outputs : forall w,
  submask (shift_register (write_backs outputs w)) (shift_register w).
Proof.
  induction outputs as [|o rest IH]; intros w; cbn [write_backs].
  - apply submask_refl.
  - eapply submask_trans; [apply IH|].
    apply (write_shift_register_submask (with_waveform_output o w)).
Qed.

(** C5. [write_shift_register] only clears bits of the shift register:
    for every shift register value and every waveform output value the
    result is a bitwise submask of the input (result AND input = result),
    and over any sequence of further write-backs, whatever the waveform
    outputs, a bit that is clear stays clear. *)
Theorem write_shift_register_clears_only (w : WaveformGenerator) :
  Z.land (shift_register (write_shift_register w)) (shift_register w)
  = shift_register (write_shift_register w)
  /\ forall (outputs : list Z) (i : Z),
       Z.testbit (shift_register w) i = false ->
       Z.testbit (shift_register (write_backs outputs w)) i = false.
Proof.
  split.
  - apply write_shift_register_submask.
  - intros outputs i Hi.
    eapply submask_testbit; [apply write_backs_submask | exact Hi].
Qed.

(** ** One step of the noise register *)

Ltac bits :=
  repeat first
    [ rewrite Z.lor_spec | rewrite Z.land_spec | rewrite Z.lxor_spec
    | rewrite Z.shiftr_spec by lia | rewrite Z.shiftl_spec by lia
    | rewrite Z.testbit_mod_pow2 by lia ].

Ltac const_bits :=
  repeat match goal with
         | |- context [Z.testbit (Zpos ?c) (Zpos ?i)] =>
           let v := eval vm_compute in (Z.testbit (Zpos c) (Zpos i)) in
           change (Z.testbit (Zpos c) (Zpos i)) with v
         | |- context [Z.testbit (Zpos ?c) 0] =>
           let v := eval vm_compute in (Z.testbit (Zpos c) 0) in
           change (Z.testbit (Zpos c) 0) with v
         end;
  rewrite ?andb_false_r, ?andb_true_r, ?orb_false_r, ?orb_false_l,
    ?andb_true_l, ?andb_false_l.

(** The bits of the value [set_noise_output] packs from a register. *)
Lemma set_noise_output_shift_register w :
  shift_register (set_noise_output w) = shift_register w.
Proof. reflexivity. Qed.

Lemma noise_output_tap (w : WaveformGenerator) (out tap : Z) :
  In (out, tap)
     [(11, 20); (10, 18); (9, 14); (8, 11); (7, 9); (6, 5); (5, 2); (4, 0)] ->
  Z.testbit (noise_output (set_noise_output w)) out
  = Z.testbit (shift_register w) tap.
Proof.
  intros Hin. unfold set_noise_output. fields.
  generalize (shift_register w). intros sr. unfold u16.
  cbn [In] in Hin.
  repeat (destruct Hin as [Hin|Hin];
          [injection Hin as <- <-; bits; cbn [Z.add Z.sub Z.opp Z.pos_sub
             Pos.add Pos.succ Pos.add_carry Pos.pred_double Z.succ_double
             Z.pred_double Z.double]; const_bits; reflexivity|]).
  contradiction.
Qed.

Ltac above_log2 :=
  repeat match goal with
         | |- context [Z.testbit (Zpos ?c) ?e] =>
           rewrite (Z.bits_above_log2 (Zpos c) e)
             by (try lia;
                 let l := eval vm_compute in (Z.log2 (Zpos c)) in
                 change (Z.log2 (Zpos c)) with l; lia)
         end;
  rewrite ?andb_false_r, ?orb_false_r, ?orb_false_l, ?andb_false_l.

Lemma noise_output_high (w : WaveformGenerator) (i : Z) :
  12 <= i -> Z.testbit (noise_output (set_noise_output w)) i = false.
Proof.
  intros Hi. unfold set_noise_output. fields.
  generalize (shift_register w). intros sr. unfold u16.
  bits. above_log2. reflexivity.
Qed.

Lemma noise_output_low (w : WaveformGenerator) (i : Z) :
  i < 4 -> Z.testbit (noise_output (set_noise_output w)) i = false.
Proof.
  intros Hi.
  destruct (Z.neg_nonneg_cases i) as [Hneg|Hpos];
    [now apply Z.testbit_neg_r|].
  unfold set_noise_output. fields.
  generalize (shift_register w). intros sr. unfold u16.
  assert (Hcases : i = 0 \/ i = 1 \/ i = 2 \/ i = 3) by lia.
  destruct Hcases as [-> | [-> | [-> | ->]]];
    bits; cbn [Z.add Z.sub Z.opp Z.pos_sub Pos.add Pos.succ Pos.add_carry
               Pos.pred_double Z.succ_double Z.pred_double Z.double];
    const_bits; rewrite ?andb_false_r; reflexivity.
Qed.

Lemma clock_shift_register_bits (w : WaveformGenerator) :
  let sr := shift_register w in
  let sr' := shift_register (clock_shift_register w) in
  Z.testbit sr' 0 = xorb (Z.testbit sr 22) (Z.testbit sr 17)
  /\ (forall i, 1 <= i < 23 -> Z.testbit sr' i = Z.testbit sr (i - 1))
  /\ (forall i, 23 <= i -> Z.testbit sr' i = false).
Proof.
  cbv zeta. unfold clock_shift_register.
  rewrite set_noise_output_shift_register. fields.
  generalize (shift_register w). intros sr. unfold u32.
  change 0x7fffff with (Z.ones 23).
  repeat split.
  - bits. rewrite Z.ones_spec_low by lia. const_bits. reflexivity.
  - intros i Hi. bits. rewrite Z.ones_spec_low by lia.
    above_log2.
    replace (i <? 32) with true by (symmetry; apply Z.ltb_lt; lia).
    now rewrite andb_true_r.
  - intros i Hi. bits. rewrite Z.ones_spec_high by lia.
    apply andb_false_r.
Qed.

(** C6. One LFSR step ([clock_shift_register]): the new bit 0 is the XOR
    of bits 22 and 17 of the current register, every other bit below 23
    comes from the bit one place lower, nothing remains at bit 23 or
    above, and the 12-bit noise output then packs the shifted register's
    taps 20, 18, 14, 11, 9, 5, 2, 0 into output bits 11 down to 4, with
    the four low output bits (and everything from bit 12 up) zero. *)
Theorem lfsr_shift_step (w : WaveformGenerator) :
  let sr := shift_register w in
  let w' := clock_shift_register w in
  let sr' := shift_register w' in
  Z.testbit sr' 0 = xorb (Z.testbit sr 22) (Z.testbit sr 17)
  /\ (forall i, 1 <= i < 23 -> Z.testbit sr' i = Z.testbit sr (i - 1))
  /\ (forall i, 23 <= i -> Z.testbit sr' i = false)
  /\ sr' = Z.land
             (Z.lor (u32 (Z.shiftl sr 1))
                (Z.b2z (xorb (Z.testbit sr 22) (Z.testbit sr 17))))
             (Z.ones 23)
  /\ (forall out tap,
        In (out, tap)
           [(11, 20); (10, 18); (9, 14); (8, 11);
            (7, 9); (6, 5); (5, 2); (4, 0)] ->
        Z.testbit (noise_output w') out = Z.testbit sr' tap)
  /\ (forall i, i < 4 -> Z.testbit (noise_output w') i = false)
  /\ (forall i, 12 <= i -> Z.testbit (noise_output w') i = false).
Proof.
  cbv zeta.
  destruct (clock_shift_register_bits w) as (H0 & Hmid & Hhigh).
  split; [exact H0|]. split; [exact Hmid|]. split; [exact Hhigh|].
  split.
  - unfold clock_shift_register.
    rewrite set_noise_output_shift_register. fields.
    change 0x7fffff with (Z.ones 23). do 2 f_equal.
    apply Z.bits_inj'. intros i Hi.
    rewrite Z.land_spec, Z.lxor_spec, !Z.shiftr_spec by lia.
    destruct (Z.eq_dec i 0) as [->|Hnz].
    + cbn [Z.add]. rewrite Z.b2z_bit0.
      destruct (xorb _ _); reflexivity.
    + rewrite (Z.bits_above_log2 1 i) by (cbn; lia).
      rewrite andb_false_r.
      destruct (xorb (Z.testbit _ 22) _); cbn [Z.b2z].
      * symmetry. apply Z.bits_above_log2; cbn; lia.
      * symmetry. apply Z.testbit_0_l.
  - unfold clock_shift_register.
    set (shifted := with_shift_register _ w).
    rewrite set_noise_output_shift_register.
    split; [|split].
    + intros out tap Hin. now apply noise_output_tap.
    + intros i Hi. now apply noise_output_low.
    + intros i Hi. now apply noise_output_high.
Qed.

(** ** Sawtooth *)

Lemma land_low12 (x m : Z) :
  0 <= x < 4096 ->
  (forall i, 0 <= i < 12 -> Z.testbit m i = true) ->
  Z.land x m = x.
Proof.
  intros Hx Hm. apply Z.bits_inj'. intros i Hi.
  rewrite Z.land_spec.
  destruct (Z.lt_ge_cases i 12) as [Hlt|Hge].
  - rewrite Hm by lia. apply andb_true_r.
  - assert (Hhigh : Z.testbit x i = false).
    { destruct (Z.eq_dec x 0) as [->|Hnz]; [apply Z.testbit_0_l|].
      apply Z.bits_above_log2; [lia|].
      apply Z.log2_lt_pow2; [lia|].
      apply Z.lt_le_trans with (2 ^ 12); [lia|].
      apply Z.pow_le_mono_r; lia. }
    now rewrite Hhigh.
Qed.

Lemma shiftr12_range (a : Z) : 0 <= a < 2 ^ 24 -> 0 <= Z.shiftr a 12 < 4096.
Proof.
  intros Ha. rewrite Z.shiftr_div_pow2 by lia. split.
  - apply Z.div_pos; lia.
  - apply Z.div_lt_upper_bound; lia.
Qed.

(** C4. Pure sawtooth: with sawtooth alone selected (selector value 2),
    for every accumulator value the digital output [waveform_output] that
    [set_waveform_output] computes is the upper 12 bits of the
    accumulator, [accumulator >> 12]. *)
Theorem pure_sawtooth (source_accumulator : Z) (w : WaveformGenerator) :
  sawtooth_selected w ->
  0 <= accumulator w < 2 ^ 24 ->
  waveform_output (set_waveform_output source_accumulator w)
  = Z.shiftr (accumulator w) 12.
Proof.
  intros (Hw & Hring & Hpulse & Hnoise & Hcache & Htable) Hacc.
  pose proof (shiftr12_range _ Hacc) as Hix.
  assert (Hlookup :
            wave_lookup source_accumulator w = Z.shiftr (accumulator w) 12).
  { unfold wave_lookup, wave_index.
    rewrite Hring, Z.land_0_r, Z.lxor_0_r, Htable by exact Hix.
    rewrite Hcache, Hpulse, Hnoise.
    rewrite (land_low12 _ (Z.lor 0xfff (pulse_output w))); trivial.
    - apply land_low12; trivial.
      intros i Hi. unfold u16. bits.
      replace (i <? 16) with true by (symmetry; apply Z.ltb_lt; lia).
      change 0xfff with (Z.ones 12). rewrite Z.ones_spec_low by lia.
      reflexivity.
    - intros i Hi. bits.
      change 0xfff with (Z.ones 12). rewrite Z.ones_spec_low by lia.
      reflexivity. }
  unfold set_waveform_output, drives_msb.
  rewrite Hw, Hlookup.
  change (truthy 2) with true. change (Z.land 2 12 =? 12) with false.
  change (Z.land 2 13) with 0. change (truthy 0) with false.
  change (8 <? 2) with false.
  cbn [andb]. rewrite andb_false_r. cbn [andb].
  destruct (truthy (Z.land 2 3) && is_8580 (sid_model w)); reflexivity.
Qed.

Lemma pure_sawtooth_witness :
  sawtooth_selected sawtooth_voice
  /\ 0 <= accumulator sawtooth_voice < 2 ^ 24
  /\ waveform_output (set_waveform_output 0x123456 sawtooth_voice) = 0xfff.
Proof.
  assert (Hsel : sawtooth_selected sawtooth_voice).
  { repeat split. }
  assert (Hacc : 0 <= accumulator sawtooth_voice < 2 ^ 24).
  { vm_compute. split; [discriminate | reflexivity]. }
  split; [exact Hsel|]. split; [exact Hacc|].
  exact (pure_sawtooth 0x123456 sawtooth_voice Hsel Hacc).
Defined.

(** ** What no operation of wave.h assigns *)

Ltac frame :=
  unfold cycle, set_waveform_output, set_waveform_output_delta, clock,
    write_shift_register, reset_shift_register, clock_shift_register,
    set_noise_output;
  split_ifs; reflexivity.

Lemma clock_controls w :
  test (clock w) = test w /\ waveform (clock w) = waveform w
  /\ pw (clock w) = pw w /\ sync (clock w) = sync w
  /\ sync_source (clock w) = sync_source w
  /\ sync_dest (clock w) = sync_dest w
  /\ sid_model (clock w) = sid_model w.
Proof. repeat split; frame. Qed.

Lemma set_waveform_output_controls src w :
  let w' := set_waveform_output src w in
  test w' = test w /\ waveform w' = waveform w
  /\ pw w' = pw w /\ sync w' = sync w
  /\ sync_source w' = sync_source w
  /\ sync_dest w' = sync_dest w
  /\ sid_model w' = sid_model w
  /\ msb_rising w' = msb_rising w.
Proof. cbv zeta. repeat split; frame. Qed.

Lemma cycle_controls synced src w :
  let w' := cycle synced src w in
  test w' = test w /\ waveform w' = waveform w
  /\ pw w' = pw w /\ sync w' = sync w
  /\ sync_source w' = sync_source w
  /\ sync_dest w' = sync_dest w
  /\ sid_model w' = sid_model w.
Proof.
  cbv zeta. unfold cycle.
  destruct (set_waveform_output_controls src
              (if synced then with_accumulator 0 (clock w) else clock w))
    as (-> & -> & -> & -> & -> & -> & -> & _).
  destruct (clock_controls w) as (Ht & Hw & Hp & Hs & Hss & Hsd & Hm).
  destruct synced; fields; auto 10.
Qed.

Lemma cycles_controls env : forall w,
  let w' := cycles env w in
  test w' = test w /\ waveform w' = waveform w
  /\ pw w' = pw w /\ sync w' = sync w
  /\ sync_source w' = sync_source w
  /\ sync_dest w' = sync_dest w
  /\ sid_model w' = sid_model w.
Proof.
  induction env as [|[synced src] rest IH]; intros w; cbn [cycles].
  - cbv zeta. auto 10.
  - cbv zeta.
    destruct (IH (cycle synced src w)) as (-> & -> & -> & -> & -> & -> & ->).
    apply cycle_controls.
Qed.

(** ** A voice inside the sample loop *)

Lemma clock_all_voice s b : clock_all s b = clock (s b).
Proof. unfold clock_all, clock_voice, store. destruct b; reflexivity. Qed.

Lemma synchronize_voice a s b :
  synchronize a s b = s b
  \/ (synchronize a s b = with_accumulator 0 (s b) /\ sync (s b) <> 0).
Proof.
  unfold synchronize.
  destruct (msb_rising (s a)); cbn [andb]; [|now left].
  destruct (truthy (sync (s (sync_dest (s a))))) eqn:Hd;
    cbn [andb]; [|now left].
  destruct (negb _); [|now left].
  unfold store. destruct (voice_eqb b (sync_dest (s a))) eqn:Hb; [|now left].
  apply voice_eqb_eq in Hb. subst b. right. split; trivial.
  now apply truthy_true_inv.
Qed.

Lemma synchronize_all_voice s b :
  synchronize_all s b = s b
  \/ (synchronize_all s b = with_accumulator 0 (s b) /\ sync (s b) <> 0).
Proof.
  unfold synchronize_all.
  destruct (synchronize_voice V2 (synchronize V1 (synchronize V0 s)) b)
    as [-> | [-> H2]];
    destruct (synchronize_voice V1 (synchronize V0 s) b)
      as [E1 | [E1 H1]];
    destruct (synchronize_voice V0 s b) as [E0 | [E0 H0]];
    rewrite ?E1, ?E0 in *; fields; auto.
Qed.

Lemma set_waveform_output_all_voice s b :
  exists src, set_waveform_output_all s b = set_waveform_output src (s b).
Proof.
  unfold set_waveform_output_all, set_waveform_output_voice, store.
  destruct b; cbn [voice_eqb]; eexists; reflexivity.
Qed.

Lemma next_sample_voice s b :
  exists synced src,
    next_sample s b = cycle synced src (s b)
    /\ (synced = true -> sync (s b) <> 0).
Proof.
  unfold next_sample.
  destruct (set_waveform_output_all_voice (synchronize_all (clock_all s)) b)
    as [src ->].
  destruct (synchronize_all_voice (clock_all s) b) as [E | [E Hs]];
    rewrite E, clock_all_voice.
  - exists false, src. split; [reflexivity | discriminate].
  - exists true, src. split; [reflexivity|].
    intros _. rewrite clock_all_voice in Hs.
    now destruct (clock_controls (s b)) as (_ & _ & _ & <- & _).
Qed.

Lemma run_voice n : forall s b,
  exists env,
    length env = n
    /\ run n s b = cycles env (s b)
    /\ Forall (fun e => fst e = true -> sync (s b) <> 0) env.
Proof.
  induction n as [|n IH]; intros s b; cbn [run].
  - exists []. repeat split. constructor.
  - destruct (IH (next_sample s) b) as (env & Hlen & Hrun & Hall).
    destruct (next_sample_voice s b) as (synced & src & Hnext & Hs).
    exists ((synced, src) :: env). cbn [length cycles].
    split; [now rewrite Hlen|]. split.
    + now rewrite Hrun, Hnext.
    + constructor; [exact Hs|].
      rewrite Hnext in Hall.
      destruct (cycle_controls synced src (s b)) as (_ & _ & _ & E & _).
      now rewrite E in Hall.
Qed.

(** ** Floating DAC input *)

Lemma clock_outputs w :
  waveform_output (clock w) = waveform_output w
  /\ osc3 (clock w) = osc3 w
  /\ floating_output_ttl (clock w) = floating_output_ttl w.
Proof. repeat split; frame. Qed.

Lemma set_waveform_output_floating src w :
  waveform w = 0 ->
  let w' := set_waveform_output src w in
  (floating_output_ttl w = 0 ->
   waveform_output w' = waveform_output w /\ osc3 w' = osc3 w
   /\ floating_output_ttl w' = 0)
  /\ (floating_output_ttl w = 1 ->
      waveform_output w' = 0 /\ osc3 w' = 0 /\ floating_output_ttl w' = 0)
  /\ (1 < floating_output_ttl w < 2 ^ 31 ->
      waveform_output w' = waveform_output w /\ osc3 w' = osc3 w
      /\ floating_output_ttl w' = floating_output_ttl w - 1).
Proof.
  intros Hw. cbv zeta. unfold set_waveform_output.
  rewrite Hw. change (truthy 0) with false. cbv iota.
  split; [|split]; intros Ht.
  - rewrite Ht. repeat split. exact Ht.
  - rewrite Ht. repeat split.
  - rewrite (truthy_true (floating_output_ttl w)) by lia.
    fields. rewrite s32_small by lia.
    rewrite (truthy_true (floating_output_ttl w - 1)) by lia.
    repeat split.
Qed.

Lemma cycle_floating synced src w :
  waveform w = 0 ->
  let w' := cycle synced src w in
  (floating_output_ttl w = 0 ->
   waveform_output w' = waveform_output w /\ osc3 w' = osc3 w
   /\ floating_output_ttl w' = 0)
  /\ (floating_output_ttl w = 1 ->
      waveform_output w' = 0 /\ osc3 w' = 0 /\ floating_output_ttl w' = 0)
  /\ (1 < floating_output_ttl w < 2 ^ 31 ->
      waveform_output w' = waveform_output w /\ osc3 w' = osc3 w
      /\ floating_output_ttl w' = floating_output_ttl w - 1).
Proof.
  intros Hw. cbv zeta. unfold cycle.
  destruct (clock_outputs w) as (Ho & H3 & Ht).
  destruct (clock_controls w) as (_ & Hw' & _).
  set (c := if synced then with_accumulator 0 (clock w) else clock w).
  assert (Hc : waveform c = 0 /\ waveform_output c = waveform_output w
               /\ osc3 c = osc3 w
               /\ floating_output_ttl c = floating_output_ttl w).
  { subst c. destruct synced; fields; rewrite Hw', Ho, H3, Ht; auto. }
  destruct Hc as (Hcw & <- & <- & <-).
  exact (set_waveform_output_floating src c Hcw).
Qed.

Lemma cycles_floating env : forall w,
  waveform w = 0 ->
  0 <= floating_output_ttl w < 2 ^ 31 ->
  let w' := cycles env w in
  let n := Z.of_nat (length env) in
  (n < floating_output_ttl w ->
   waveform_output w' = waveform_output w /\ osc3 w' = osc3 w
   /\ floating_output_ttl w' = floating_output_ttl w - n)
  /\ (0 < floating_output_ttl w <= n ->
      waveform_output w' = 0 /\ osc3 w' = 0 /\ floating_output_ttl w' = 0)
  /\ (floating_output_ttl w = 0 ->
      waveform_output w' = waveform_output w /\ osc3 w' = osc3 w
      /\ floating_output_ttl w' = 0).
Proof.
  induction env as [|[synced src] rest IH]; intros w Hw Ht; cbv zeta.
  - cbn [cycles length]. repeat split; try reflexivity; lia.
  - cbn [cycles length]. rewrite Nat2Z.inj_succ.
    destruct (cycle_floating synced src w Hw) as (H0 & H1 & Hmany).
    destruct (cycle_controls synced src w) as (_ & Hw1 & _).
    rewrite Hw in Hw1.
    set (w1 := cycle synced src w) in *.
    assert (Hcases : floating_output_ttl w = 0 \/ floating_output_ttl w = 1
                     \/ 1 < floating_output_ttl w < 2 ^ 31) by lia.
    destruct Hcases as [Hz | [Hone | Hgt]].
    + destruct (H0 Hz) as (Eo & E3 & Et).
      destruct (IH w1 Hw1) as (_ & _ & Hrest); [lia|].
      destruct (Hrest Et) as (Ro & R3 & Rt).
      repeat split; intros; try lia; congruence.
    + destruct (H1 Hone) as (Eo & E3 & Et).
      destruct (IH w1 Hw1) as (_ & _ & Hrest); [lia|].
      destruct (Hrest Et) as (Ro & R3 & Rt).
      repeat split; intros; try lia; congruence.
    + destruct (Hmany Hgt) as (Eo & E3 & Et).
      destruct (IH w1 Hw1) as (Hbefore & Hafter & _); [lia|].
      rewrite Eo, E3, Et in *.
      repeat split; intros; try lia;
        try (apply Hbefore; lia); try (apply Hafter; lia).
Qed.

Lemma run_S n : forall s, run (S n) s = next_sample (run n s).
Proof.
  induction n as [|n IH]; intros s; [reflexivity|].
  change (run (S (S n)) s) with (run (S n) (next_sample s)).
  rewrite IH. reflexivity.
Qed.

Lemma delta_floating_decay (d src : Z) (w : WaveformGenerator) :
  waveform w = 0 ->
  0 < floating_output_ttl w < 2 ^ 31 ->
  0 < d < 2 ^ 31 ->
  let w' := set_waveform_output_delta d src w in
  (d < floating_output_ttl w ->
   waveform_output w' = waveform_output w /\ osc3 w' = osc3 w
   /\ floating_output_ttl w' = floating_output_ttl w - d)
  /\ (floating_output_ttl w <= d ->
      waveform_output w' = 0 /\ osc3 w' = 0 /\ floating_output_ttl w' = 0).
Proof.
  intros Hw Ht Hd. cbv zeta. unfold set_waveform_output_delta.
  rewrite Hw. change (truthy 0) with false. cbv iota.
  rewrite (truthy_true (floating_output_ttl w)) by lia.
  fields. rewrite s32_small by lia.
  split; intros Hcmp.
  - replace (floating_output_ttl w - d <=? 0) with false
      by (symmetry; apply Z.leb_gt; lia).
    repeat split.
  - replace (floating_output_ttl w - d <=? 0) with true
      by (symmetry; apply Z.leb_le; lia).
    repeat split.
Qed.

(** C7. Floating decay: with no waveform selected and a floating-output
    countdown of T > 0, the output ([waveform_output] and [osc3]) of the
    voice still holds its value after every number of cycles below T, is
    exactly 0 after T cycles (and from then on), and never increases from
    one cycle to the next.  The delta variant of [set_waveform_output]
    agrees: a step of fewer than T cycles keeps the output, a step of T or
    more zeroes it. *)
Theorem floating_decay (s : SID) (a : voice_id) (T : Z) (n : nat) :
  waveform (s a) = 0 ->
  floating_output_ttl (s a) = T ->
  0 < T < 2 ^ 31 ->
  0 <= waveform_output (s a) ->
  0 <= osc3 (s a) ->
  (Z.of_nat n < T ->
   waveform_output (run n s a) = waveform_output (s a)
   /\ osc3 (run n s a) = osc3 (s a))
  /\ (T <= Z.of_nat n ->
      waveform_output (run n s a) = 0 /\ osc3 (run n s a) = 0)
  /\ waveform_output (run (S n) s a) <= waveform_output (run n s a)
  /\ osc3 (run (S n) s a) <= osc3 (run n s a)
  /\ forall d src,
       0 < d < 2 ^ 31 ->
       let w' := set_waveform_output_delta d src (s a) in
       (d < T -> waveform_output w' = waveform_output (s a)
                 /\ osc3 w' = osc3 (s a))
       /\ (T <= d -> waveform_output w' = 0 /\ osc3 w' = 0).
Proof.
  intros Hw HT Hrange Ho H3.
  destruct (run_voice n s a) as (env & Hlen & Hrun & _).
  destruct (cycles_floating env (s a) Hw) as (Hbefore & Hafter & _);
    [lia|].
  rewrite Hlen, HT, <- Hrun in Hbefore, Hafter.
  split; [intros H; destruct (Hbefore H) as (? & ? & _); auto|].
  split; [intros H; destruct Hafter as (? & ? & _); auto; lia|].
  assert (Hstep : waveform_output (run (S n) s a) <= waveform_output (run n s a)
                  /\ osc3 (run (S n) s a) <= osc3 (run n s a)).
  { rewrite run_S.
    destruct (next_sample_voice (run n s) a) as (synced & src & -> & _).
    assert (Hwn : waveform (run n s a) = 0).
    { rewrite Hrun.
      now destruct (cycles_controls env (s a)) as (_ & -> & _). }
    destruct (cycle_floating synced src (run n s a) Hwn)
      as (H0 & H1 & Hmany).
    destruct (Z.lt_ge_cases (Z.of_nat n) T) as [Hlt|Hge].
    - destruct (Hbefore Hlt) as (Eo & E3 & Et).
      assert (Hcases : floating_output_ttl (run n s a) = 1
                       \/ 1 < floating_output_ttl (run n s a) < 2 ^ 31)
        by lia.
      destruct Hcases as [Hone|Hgt].
      + destruct (H1 Hone) as (-> & -> & _). lia.
      + destruct (Hmany Hgt) as (-> & -> & _). lia.
    - destruct Hafter as (Eo & E3 & Et); [lia|].
      destruct (H0 Et) as (-> & -> & _). lia. }
  split; [apply Hstep|]. split; [apply Hstep|].
  intros d src Hd. cbv zeta.
  destruct (delta_floating_decay d src (s a) Hw) as (Hless & Hmore);
    [lia | lia |].
  rewrite HT in Hless, Hmore.
  split; intros H.
  - destruct (Hless H) as (? & ? & _). auto.
  - destruct (Hmore H) as (? & ? & _). auto.
Qed.

Lemma floating_decay_witness :
  waveform (floating_ring V0) = 0
  /\ floating_output_ttl (floating_ring V0) = 3
  /\ waveform_output (run 2 floating_ring V0)
     = waveform_output (floating_ring V0)
  /\ waveform_output (run 3 floating_ring V0) = 0.
Proof.
  assert (Hw : waveform (floating_ring V0) = 0) by (vm_compute; reflexivity).
  assert (Ht : floating_output_ttl (floating_ring V0) = 3)
    by (vm_compute; reflexivity).
  assert (Ho : 0 <= waveform_output (floating_ring V0))
    by (vm_compute; discriminate).
  assert (H3 : 0 <= osc3 (floating_ring V0)) by (vm_compute; discriminate).
  assert (HT : 0 < 3 < 2 ^ 31) by lia.
  split; [exact Hw|]. split; [exact Ht|]. split.
  - destruct (floating_decay floating_ring V0 3 2 Hw Ht HT Ho H3)
      as (Hbefore & _).
    exact (proj1 (Hbefore eq_refl)).
  - destruct (floating_decay floating_ring V0 3 3 Hw Ht HT Ho H3)
      as (_ & Hafter & _).
    refine (proj1 (Hafter _)). discriminate.
Defined.

(** ** Register widths *)

Lemma land_bound (n a b : Z) :
  0 <= n -> 0 <= a < 2 ^ n -> 0 <= Z.land a b < 2 ^ n.
Proof.
  intros Hn Ha.
  rewrite <- (Z.mod_small a (2 ^ n)) by exact Ha.
  rewrite <- Z.land_ones by exact Hn.
  rewrite <- Z.land_assoc, (Z.land_comm (Z.ones n) b), Z.land_assoc.
  rewrite Z.land_ones by exact Hn.
  apply Z.mod_pos_bound. lia.
Qed.

Lemma mask23_range (x : Z) : 0 <= Z.land x 0x7fffff < 2 ^ 23.
Proof.
  change 0x7fffff with (Z.ones 23). rewrite Z.land_ones by lia.
  apply Z.mod_pos_bound. lia.
Qed.

Lemma clock_shift_register_in_range w :
  in_range w -> in_range (clock_shift_register w).
Proof.
  intros [Ha _]. split; [exact Ha|].
  unfold clock_shift_register.
  rewrite set_noise_output_shift_register. fields. apply mask23_range.
Qed.

Lemma write_shift_register_in_range w :
  in_range w -> in_range (write_shift_register w).
Proof.
  intros [Ha Hs]. split; [exact Ha|].
  unfold write_shift_register. fields. now apply land_bound.
Qed.

Lemma reset_shift_register_in_range w :
  in_range w -> in_range (reset_shift_register w).
Proof.
  intros [Ha _]. split; [exact Ha|].
  unfold reset_shift_register.
  rewrite set_noise_output_shift_register. fields. lia.
Qed.

Lemma with_pulse_output_in_range v w :
  in_range w -> in_range (with_pulse_output v w).
Proof. intros Hw. exact Hw. Qed.

Lemma clock_in_range w : in_range w -> in_range (clock w).
Proof.
  intros Hw. unfold clock.
  destruct (truthy (test w)).
  - apply with_pulse_output_in_range.
    destruct (truthy (shift_register_reset w)); [|exact Hw].
    destruct (negb _); [|exact Hw].
    apply reset_shift_register_in_range. exact Hw.
  - set (next := Z.land (u32 (accumulator w + freq w)) 0xffffff).
    set (w2 := with_msb_rising _ (with_accumulator next w)).
    assert (Hrun : in_range w2).
    { split; [|apply Hw]. subst w2 next. fields. rewrite mask24.
      apply Z.mod_pos_bound. lia. }
    destruct (truthy (Z.land _ 0x080000)); [exact Hrun|].
    destruct (truthy (shift_pipeline w2)); [|exact Hrun].
    destruct (negb _); [|exact Hrun].
    apply clock_shift_register_in_range. exact Hrun.
Qed.

Lemma clock_delta_in_range (delta_t : Z) w :
  in_range w ->
  exists w', clock_delta delta_t w = Some w' /\ in_range w'.
Proof.
  intros Hw. unfold clock_delta.
  destruct (truthy (test w)).
  - eexists. split; [reflexivity|].
    apply with_pulse_output_in_range.
    destruct (truthy (shift_register_reset w)); [|exact Hw].
    destruct (_ <=? 0); [|exact Hw].
    apply reset_shift_register_in_range. exact Hw.
  - set (d := u32 (delta_t * freq w)).
    set (next := Z.land (u32 (accumulator w + d)) 0xffffff).
    set (w2 := with_msb_rising _ (with_accumulator next w)).
    assert (Hw2 : in_range w2).
    { split; [|apply Hw]. subst w2 next. fields. rewrite mask24.
      apply Z.mod_pos_bound. lia. }
    destruct (shift_loop_total in_range clock_shift_register_in_range
                (shift_loop_fuel d) d 0x100000 w2 (u32_range _))
      as (w3 & -> & Hw3); trivial.
    + left. split; trivial. apply shift_loop_fuel_enough, u32_range.
    + eexists. split; [reflexivity|].
      apply with_pulse_output_in_range. exact Hw3.
Qed.

Lemma set_waveform_output_in_range src w :
  in_range w -> in_range (set_waveform_output src w).
Proof.
  intros Hw. unfold set_waveform_output.
  apply with_pulse_output_in_range.
  destruct (truthy (waveform w)).
  - match goal with
    | |- in_range (if _ then write_shift_register ?x else _) =>
      assert (Hx : in_range x)
    end.
    { destruct (drives_msb w);
        destruct (truthy (Z.land (waveform w) 3) && is_8580 (sid_model w));
        split; fields; try apply Hw; apply land_bound; try lia; apply Hw. }
    match goal with
    | |- in_range (if ?c then _ else _) => destruct c; [|exact Hx]
    end.
    apply write_shift_register_in_range. exact Hx.
  - destruct (truthy (floating_output_ttl w)); [|exact Hw].
    destruct (negb _); exact Hw.
Qed.

Lemma set_waveform_output_delta_in_range d src w :
  in_range w -> in_range (set_waveform_output_delta d src w).
Proof.
  intros Hw. unfold set_waveform_output_delta.
  destruct (truthy (waveform w)).
  - match goal with
    | |- in_range (if _ then write_shift_register ?x else _) =>
      assert (Hx : in_range x)
    end.
    { destruct (drives_msb w); split; fields; try apply Hw.
      apply land_bound; try lia; apply Hw. }
    match goal with
    | |- in_range (if ?c then _ else _) => destruct c; [|exact Hx]
    end.
    apply write_shift_register_in_range. exact Hx.
  - destruct (truthy (floating_output_ttl w)); [|exact Hw].
    destruct (_ <=? 0); exact Hw.
Qed.

Lemma synchronize_in_range a s :
  (forall b, in_range (s b)) -> forall b, in_range (synchronize a s b).
Proof.
  intros Hs b.
  destruct (synchronize_voice a s b) as [-> | [-> _]]; [apply Hs|].
  split; fields; [lia | apply Hs].
Qed.

Lemma cycle_in_range synced src w : in_range w -> in_range (cycle synced src w).
Proof.
  intros Hw. unfold cycle. apply set_waveform_output_in_range.
  pose proof (clock_in_range w Hw) as Hc.
  destruct synced; [|exact Hc].
  split; fields; [lia | apply Hc].
Qed.

Lemma run_in_range n : forall s,
  (forall b, in_range (s b)) -> forall b, in_range (run n s b).
Proof.
  induction n as [|n IH]; intros s Hs b; [apply Hs|].
  cbn [run]. apply IH. intros c.
  destruct (next_sample_voice s c) as (synced & src & -> & _).
  now apply cycle_in_range.
Qed.

(** C9. The widths of the accumulator (24 bits) and of the shift register
    (23 bits) are an invariant: whenever every voice holds both within
    range, so does it after [clock()], after the delta [clock(delta_t)]
    (which returns), after [synchronize()] on any voice, after either
    [set_waveform_output], after [clock_shift_register],
    [write_shift_register] and [reset_shift_register], and hence after
    any number of passes of the sample loop. *)
Theorem registers_stay_in_range (s : SID) :
  (forall b, in_range (s b)) ->
  forall (a b : voice_id) (delta_t src : Z) (n : nat),
    in_range (clock (s b))
    /\ (exists w', clock_delta delta_t (s b) = Some w' /\ in_range w')
    /\ in_range (synchronize a s b)
    /\ in_range (set_waveform_output src (s b))
    /\ in_range (set_waveform_output_delta delta_t src (s b))
    /\ in_range (clock_shift_register (s b))
    /\ in_range (write_shift_register (s b))
    /\ in_range (reset_shift_register (s b))
    /\ in_range (run n s b).
Proof.
  intros Hs a b delta_t src n.
  split; [apply clock_in_range, Hs|].
  split; [apply clock_delta_in_range, Hs|].
  split; [now apply synchronize_in_range|].
  split; [apply set_waveform_output_in_range, Hs|].
  split; [apply set_waveform_output_delta_in_range, Hs|].
  split; [apply clock_shift_register_in_range, Hs|].
  split; [apply write_shift_register_in_range, Hs|].
  split; [apply reset_shift_register_in_range, Hs|].
  now apply run_in_range.
Qed.

Lemma sync_ring_in_range : forall b, in_range (sync_ring b).
Proof.
  intros b. destruct b; vm_compute; repeat split; discriminate.
Qed.

Lemma registers_stay_in_range_witness :
  (forall b, in_range (sync_ring b))
  /\ in_range (clock (sync_ring V1))
  /\ in_range (synchronize V0 sync_ring V1)
  /\ in_range (run 2 sync_ring V1).
Proof.
  split; [exact sync_ring_in_range|].
  destruct (registers_stay_in_range sync_ring sync_ring_in_range
              V0 V1 3 0 2%nat)
    as (Hclock & _ & Hsync & _ & _ & _ & _ & _ & Hrun).
  split; [exact Hclock|]. split; [exact Hsync | exact Hrun].
Defined.

(** ** The test bit *)

Lemma clock_held w :
  test w <> 0 ->
  clock w
  = with_pulse_output 0xfff
      (if truthy (shift_register_reset w)
       then
         if negb (truthy (s32 (shift_register_reset w - 1)))
         then reset_shift_register
                (with_shift_register_reset
                   (s32 (shift_register_reset w - 1)) w)
         else with_shift_register_reset
                (s32 (shift_register_reset w - 1)) w
       else w).
Proof. intros Ht. unfold clock. now rewrite (truthy_true _ Ht). Qed.

Lemma clock_held_frame w :
  test w <> 0 ->
  accumulator (clock w) = accumulator w
  /\ msb_rising (clock w) = msb_rising w
  /\ shift_pipeline (clock w) = shift_pipeline w
  /\ freq (clock w) = freq w
  /\ pw (clock w) = pw w
  /\ waveform_output (clock w) = waveform_output w
  /\ pulse_output (clock w) = 0xfff.
Proof.
  intros Ht. rewrite (clock_held w Ht).
  repeat split; split_ifs; reflexivity.
Qed.

Lemma set_waveform_output_pulse src w :
  pulse_output (set_waveform_output src w)
  = comparator (set_waveform_output src w).
Proof.
  unfold set_waveform_output.
  match goal with
  | |- pulse_output (with_pulse_output _ ?x) = _ => generalize x
  end.
  intros x. unfold comparator, pulse_level. fields.
  destruct (pw x <=? Z.shiftr (accumulator x) 12); reflexivity.
Qed.

Lemma set_waveform_output_accumulator src w :
  submask (accumulator (set_waveform_output src w)) (accumulator w)
  /\ (drives_msb w = false ->
      accumulator (set_waveform_output src w) = accumulator w).
Proof.
  unfold set_waveform_output, write_shift_register.
  destruct (drives_msb w); split; try discriminate;
    split_ifs; fields;
    solve [apply submask_land | apply submask_refl | reflexivity].
Qed.

Lemma cycle_held synced src w :
  test w <> 0 ->
  let w' := cycle synced src w in
  msb_rising w' = msb_rising w
  /\ submask (accumulator w') (accumulator w)
  /\ (synced = false -> drives_msb w = false ->
      accumulator w' = accumulator w)
  /\ pulse_output w' = comparator w'
  /\ drives_msb w' = drives_msb w.
Proof.
  intros Ht. cbv zeta. unfold cycle.
  destruct (clock_held_frame w Ht) as (Ha & Hm & _).
  destruct (clock_controls w) as (_ & Hw & _ & _ & _ & _ & Hmodel).
  set (c := if synced then with_accumulator 0 (clock w) else clock w).
  assert (Hc : msb_rising c = msb_rising w
               /\ submask (accumulator c) (accumulator w)
               /\ (synced = false -> accumulator c = accumulator w)
               /\ drives_msb c = drives_msb w).
  { subst c. unfold drives_msb.
    destruct synced; fields; rewrite ?Ha, ?Hm, ?Hw, ?Hmodel;
      repeat split; try discriminate; try reflexivity.
    apply submask_refl. }
  destruct Hc as (Hcm & Hcs & Hca & Hcd).
  destruct (set_waveform_output_controls src c)
    as (_ & Ew & _ & _ & _ & _ & Emodel & Emsb).
  destruct (set_waveform_output_accumulator src c) as (Hsub & Hsame).
  split; [now rewrite Emsb|].
  split; [eapply submask_trans; eassumption|].
  split.
  - intros Hs Hd. rewrite Hsame by now rewrite Hcd. now apply Hca.
  - split; [apply set_waveform_output_pulse|].
    rewrite <- Hcd. unfold drives_msb. now rewrite Ew, Emodel.
Qed.

Lemma cycles_held env : forall w,
  test w <> 0 ->
  let w' := cycles env w in
  msb_rising w' = msb_rising w
  /\ submask (accumulator w') (accumulator w)
  /\ (Forall (fun e => fst e = false) env -> drives_msb w = false ->
      accumulator w' = accumulator w)
  /\ (env <> [] -> pulse_output w' = comparator w').
Proof.
  induction env as [|[synced src] rest IH]; intros w Ht; cbv zeta;
    cbn [cycles].
  - repeat split; try reflexivity; try congruence. apply submask_refl.
  - destruct (cycle_held synced src w Ht) as (Em & Es & Ea & Ep & Ed).
    destruct (cycle_controls synced src w) as (Et & _).
    assert (Ht1 : test (cycle synced src w) <> 0) by now rewrite Et.
    destruct (IH (cycle synced src w) Ht1) as (Rm & Rs & Ra & Rp).
    split; [now rewrite Rm|].
    split; [eapply submask_trans; eassumption|].
    split.
    + intros Hall Hd. inversion Hall as [|? ? Hhead Htail]; subst.
      cbn [fst] in Hhead.
      rewrite Ra; [now apply Ea | exact Htail | now rewrite Ed].
    + intros _. destruct rest as [|e rest'].
      * cbn [cycles]. exact Ep.
      * apply Rp. discriminate.
Qed.

Lemma run_controls n s b :
  test (run n s b) = test (s b)
  /\ sync (run n s b) = sync (s b)
  /\ sync_source (run n s b) = sync_source (s b)
  /\ sync_dest (run n s b) = sync_dest (s b).
Proof.
  destruct (run_voice n s b) as (env & _ & -> & _).
  destruct (cycles_controls env (s b)) as (-> & _ & _ & -> & -> & -> & _).
  auto.
Qed.

(** ** The pulse comparator *)

Lemma clock_running_pulse w :
  test w = 0 -> pulse_output (clock w) = pulse_output w.
Proof.
  intros Ht. unfold clock, clock_shift_register. rewrite Ht, truthy_0.
  split_ifs; reflexivity.
Qed.

Lemma clock_delta_pulse (delta_t : Z) w :
  test w = 0 ->
  exists w', clock_delta delta_t w = Some w'
             /\ pulse_output w' = comparator w'.
Proof.
  intros Ht. unfold clock_delta. rewrite Ht, truthy_0.
  set (d := u32 (delta_t * freq w)).
  set (w2 := with_msb_rising _ _).
  destruct (shift_loop_total (fun _ => True) (fun _ _ => I)
              (shift_loop_fuel d) d 0x100000 w2 (u32_range _))
    as (w3 & -> & _); trivial.
  - left. split; trivial. apply shift_loop_fuel_enough, u32_range.
  - eexists. split; reflexivity.
Qed.

Lemma set_waveform_output_delta_pulse d src w :
  pulse_output (set_waveform_output_delta d src w) = pulse_output w.
Proof. frame. Qed.

(** C8, as the code has it.  In single-cycle clocking every
    [set_waveform_output()], whatever the waveform selector, ends by
    storing the comparator result: 0xfff if the upper 12 bits of the
    accumulator (as that call leaves it) are >= the pulse width, 0x000
    otherwise.  With the test bit clear the [clock()] of the next cycle
    keeps it, so it is the pulse value the next cycle's output computation
    reads, one cycle after the comparison, and it is then replaced by the
    next comparison.  With the test bit set that [clock()] overrides it
    with 0xfff.  In delta clocking the comparison is made by
    [clock(delta_t)] and read by the output computation of the same
    step. *)
Theorem pulse_comparator_delay (src : Z) (w : WaveformGenerator) :
  let w1 := set_waveform_output src w in
  pulse_output w1 = comparator w1
  /\ (test w = 0 ->
      forall (synced : bool) (src' : Z),
        let entry := if synced then with_accumulator 0 (clock w1)
                     else clock w1 in
        pulse_output entry = comparator w1
        /\ wave_lookup src' entry
           = Z.land
               (Z.land (wave entry (wave_index src' entry))
                  (Z.lor (no_pulse entry) (comparator w1)))
               (no_noise_or_noise_output entry)
        /\ pulse_output (set_waveform_output src' entry)
           = comparator (set_waveform_output src' entry))
  /\ (test w <> 0 -> pulse_output (clock w1) = 0xfff)
  /\ (test w = 0 ->
      forall delta_t : Z,
      exists w',
        clock_delta delta_t w = Some w'
        /\ pulse_output w' = comparator w'
        /\ forall src',
             pulse_output (set_waveform_output_delta delta_t src' w')
             = comparator w').
Proof.
  cbv zeta.
  destruct (set_waveform_output_controls src w) as (Et & _).
  pose proof (set_waveform_output_pulse src w) as Hcmp.
  split; [exact Hcmp|]. split; [|split].
  - intros Ht synced src'.
    assert (Hentry :
              pulse_output
                (if synced
                 then with_accumulator 0 (clock (set_waveform_output src w))
                 else clock (set_waveform_output src w))
              = comparator (set_waveform_output src w)).
    { rewrite <- Hcmp, <- (clock_running_pulse (set_waveform_output src w))
        by now rewrite Et.
      destruct synced; reflexivity. }
    split; [exact Hentry|]. split.
    + unfold wave_lookup. now rewrite Hentry.
    + apply set_waveform_output_pulse.
  - intros Ht.
    apply (clock_held_frame (set_waveform_output src w)). now rewrite Et.
  - intros Ht delta_t.
    destruct (clock_delta_pulse delta_t w Ht) as (w' & Hd & Hp).
    exists w'. split; [exact Hd|]. split; [exact Hp|].
    intros src'. now rewrite set_waveform_output_delta_pulse.
Qed.

Lemma pulse_comparator_delay_witness :
  test sawtooth_voice = 0
  /\ pulse_output (clock (set_waveform_output 0 sawtooth_voice))
     = comparator (set_waveform_output 0 sawtooth_voice).
Proof.
  assert (Ht : test sawtooth_voice = 0) by (vm_compute; reflexivity).
  destruct (pulse_comparator_delay 0 sawtooth_voice) as (_ & Hrun & _).
  split; [exact Ht|].
  exact (proj1 (Hrun Ht false 0)).
Defined.

(** C8 as stated fails.  Under the test bit the comparator result of a
    cycle (0x000 here) is not what the next cycle's output computation
    reads: [clock()] has put 0xfff there and the pulse output comes out
    high.  Under delta clocking the comparison of a step is visible in
    the output of that same step: a voice entering with pulse output
    0x000 leaves its first step with the pulse high. *)
Lemma pulse_comparator_delay_counterexample :
  (let w1 := cycle false 0 held_pulse_voice in
   comparator w1 = 0x000
   /\ pulse_output (clock w1) = 0xfff
   /\ waveform_output (cycle false 0 w1) = 0xfff)
  /\ (pulse_output delta_pulse_voice = 0x000
      /\ exists w',
           clock_delta 0x800 delta_pulse_voice = Some w'
           /\ comparator w' = 0xfff
           /\ waveform_output (set_waveform_output_delta 0x800 0 w') = 0xfff).
Proof.
  split.
  - vm_compute. repeat split.
  - split; [reflexivity|].
    eexists. split; [vm_compute; reflexivity|].
    vm_compute. split; reflexivity.
Qed.

(** ** The frame of a clock under the test bit *)

Lemma clock_held_untouched w :
  test w <> 0 -> held_clock_frame w (clock w).
Proof.
  intros Ht. rewrite (clock_held w Ht).
  unfold held_clock_frame, reset_shift_register, set_noise_output.
  repeat split; split_ifs; reflexivity.
Qed.

Lemma clock_held_shift_register w :
  test w <> 0 ->
  (countdown_completes w = false ->
   shift_register (clock w) = shift_register w
   /\ noise_output (clock w) = noise_output w
   /\ no_noise_or_noise_output (clock w) = no_noise_or_noise_output w)
  /\ (countdown_completes w = true ->
      shift_register (clock w) = 0x7fffff
      /\ shift_register_reset (clock w) = 0
      /\ noise_output (clock w) = 0xff0).
Proof.
  intros Ht. rewrite (clock_held w Ht). unfold countdown_completes.
  destruct (truthy (shift_register_reset w)); cbn [andb];
    [destruct (negb _)|]; split; intros H; try discriminate H;
    repeat split.
Qed.

Lemma run_held_msb_rising n s a :
  test (s a) <> 0 -> msb_rising (run n s a) = msb_rising (s a).
Proof.
  intros Ht.
  destruct (run_voice n s a) as (env & _ & -> & _).
  now destruct (cycles_held env (s a) Ht) as (-> & _).
Qed.

(** C10. With the test bit set, a single-cycle [clock()] leaves the
    accumulator, [msb_rising], [shift_pipeline], [freq], [pw] and
    [waveform_output] (and every other member but the five named next)
    unchanged; it sets [pulse_output], counts [shift_register_reset]
    down, and only when that countdown completes does it touch the shift
    register and the noise output.  So an [msb_rising] flag that is up
    when the voice is frozen is still up after any number of passes of
    the sample loop, and [synchronize()] on the frozen voice then still
    zeroes the accumulator of a sync destination that has its sync bit
    set. *)
Theorem frozen_clock_frame (s : SID) (a : voice_id) :
  test (s a) <> 0 ->
  held_clock_frame (s a) (clock (s a))
  /\ pulse_output (clock (s a)) = 0xfff
  /\ (countdown_completes (s a) = false ->
      shift_register (clock (s a)) = shift_register (s a)
      /\ noise_output (clock (s a)) = noise_output (s a)
      /\ no_noise_or_noise_output (clock (s a))
         = no_noise_or_noise_output (s a))
  /\ (countdown_completes (s a) = true ->
      shift_register (clock (s a)) = 0x7fffff
      /\ shift_register_reset (clock (s a)) = 0
      /\ noise_output (clock (s a)) = 0xff0)
  /\ forall n : nat,
       msb_rising (s a) = true ->
       msb_rising (run n s a) = true
       /\ msb_rising (clock_all (run n s) a) = true
       /\ (sync (s (sync_dest (s a))) <> 0 ->
           sync (s a) = 0 ->
           accumulator
             (synchronize a (clock_all (run n s)) (sync_dest (s a))) = 0).
Proof.
  intros Ht.
  split; [now apply clock_held_untouched|].
  split; [now apply clock_held_frame|].
  destruct (clock_held_shift_register (s a) Ht) as (Hidle & Hdone).
  split; [exact Hidle|]. split; [exact Hdone|].
  intros n Hmsb.
  assert (Hn : msb_rising (run n s a) = true)
    by now rewrite run_held_msb_rising.
  destruct (run_controls n s a) as (Etest & Esync & _ & Edest).
  assert (Hc : msb_rising (clock_all (run n s) a) = true).
  { rewrite clock_all_voice.
    destruct (clock_held_frame (run n s a)) as (_ & -> & _); trivial.
    now rewrite Etest. }
  split; [exact Hn|]. split; [exact Hc|].
  intros Hdsync Hown.
  set (d := sync_dest (s a)) in *.
  assert (Hdest : sync_dest (clock_all (run n s) a) = d).
  { rewrite clock_all_voice.
    destruct (clock_controls (run n s a)) as (_ & _ & _ & _ & _ & -> & _).
    exact Edest. }
  assert (Hds : sync (clock_all (run n s) d) <> 0).
  { rewrite clock_all_voice.
    destruct (clock_controls (run n s d)) as (_ & _ & _ & -> & _).
    now destruct (run_controls n s d) as (_ & -> & _). }
  assert (Hos : sync (clock_all (run n s) a) = 0).
  { rewrite clock_all_voice.
    destruct (clock_controls (run n s a)) as (_ & _ & _ & -> & _).
    now rewrite Esync. }
  unfold synchronize.
  rewrite Hc, Hdest, (truthy_true _ Hds), Hos, truthy_0.
  cbn [andb negb]. now rewrite store_same.
Qed.

Lemma frozen_clock_frame_witness :
  test (frozen_ring V0) <> 0
  /\ msb_rising (frozen_ring V0) = true
  /\ accumulator (clock (frozen_ring V0)) = accumulator (frozen_ring V0)
  /\ accumulator
       (synchronize V0 (clock_all (run 3 frozen_ring))
          (sync_dest (frozen_ring V0))) = 0.
Proof.
  assert (Ht : test (frozen_ring V0) <> 0) by (vm_compute; discriminate).
  assert (Hm : msb_rising (frozen_ring V0) = true)
    by (vm_compute; reflexivity).
  destruct (frozen_clock_frame frozen_ring V0 Ht) as (Hframe & _ & _ & _ & Hlater).
  split; [exact Ht|]. split; [exact Hm|]. split.
  - apply Hframe.
  - destruct (Hlater 3%nat Hm) as (_ & _ & Hzero).
    apply Hzero; vm_compute; [discriminate | reflexivity].
Defined.

(** In that ring the stale flag is not idle: on the fourth pass the
    running destination has moved off zero before [synchronize()] on the
    frozen voice puts it back. *)
Example frozen_sync_resets_running_voice :
  accumulator (clock_all (run 3 frozen_ring) V1) = 0x1000
  /\ accumulator
       (synchronize V0 (clock_all (run 3 frozen_ring)) V1) = 0.
Proof. vm_compute. split; reflexivity. Qed.

(** * Further properties of the waveform generator *)

(** ** The oscillator *)

(** X1. With the test bit clear, an oscillator whose accumulator is
    within its 24 bits is back at its starting phase after any number N
    of single-cycle clocks for which N times the frequency register is a
    multiple of 2^24 (4096 cycles at frequency 0x1000). *)
Theorem oscillator_period (w : WaveformGenerator) (N : nat) :
  test w = 0 ->
  0 <= accumulator w < 2 ^ 24 ->
  (1 <= N)%nat ->
  (Z.of_nat N * freq w) mod 2 ^ 24 = 0 ->
  accumulator (clock_n N w) = accumulator w.
Proof.
  intros Ht Ha HN Hmul.
  destruct N as [|n]; [lia|].
  destruct (clock_iter_running n w Ht) as (_ & _ & ->).
  rewrite <- Zplus_mod_idemp_r, Hmul, Z.add_0_r.
  now apply Z.mod_small.
Qed.

Lemma oscillator_period_witness :
  accumulator (clock_n 4096 running_voice) = accumulator running_voice.
Proof.
  apply (oscillator_period running_voice 4096).
  - vm_compute. reflexivity.
  - vm_compute. split; [discriminate | reflexivity].
  - apply Nat2Z.inj_le. vm_compute. discriminate.
  - vm_compute. reflexivity.
Defined.

Lemma truthy_land_pow2 (x k : Z) :
  0 <= k -> truthy (Z.land x (2 ^ k)) = Z.testbit x k.
Proof.
  intros Hk. destruct (Z.testbit x k) eqn:Hb.
  - apply truthy_true. intros H0.
    assert (Hbit : Z.testbit (Z.land x (2 ^ k)) k = true).
    { rewrite Z.land_spec, Hb, Z.pow2_bits_true by lia. reflexivity. }
    rewrite H0, Z.testbit_0_l in Hbit. discriminate.
  - replace (Z.land x (2 ^ k)) with 0; [reflexivity|].
    symmetry. apply Z.bits_inj'. intros i Hi.
    rewrite Z.land_spec, Z.testbit_0_l, Z.pow2_bits_eqb by lia.
    destruct (Z.eqb_spec k i) as [->|_]; [|apply andb_false_r].
    now rewrite Hb.
Qed.

Lemma bits_set_rises (i : Z) w :
  test w = 0 -> 0 <= i < 24 ->
  truthy
    (Z.land
       (Z.land (u32 (Z.lnot (accumulator w)))
          (Z.land (u32 (accumulator w + freq w)) 0xffffff))
       (2 ^ i))
  = bit_rises i w.
Proof.
  intros Ht Hi. rewrite truthy_land_pow2 by lia.
  unfold bit_rises. rewrite clock_running_accumulator, <- mask24 by trivial.
  rewrite Z.land_spec. f_equal.
  unfold u32. rewrite Z.testbit_mod_pow2, Z.lnot_spec by lia.
  replace (i <? 32) with true by (symmetry; apply Z.ltb_lt; lia).
  reflexivity.
Qed.

(** [clock()] with the test bit clear, in terms of the two edges it
    looks for. *)
Lemma clock_running w :
  test w = 0 ->
  clock w
  = let w2 :=
      with_msb_rising (bit_rises 23 w)
        (with_accumulator
           (Z.land (u32 (accumulator w + freq w)) 0xffffff) w) in
    if bit_rises 19 w then with_shift_pipeline 2 w2
    else if truthy (shift_pipeline w) then
      let w3 := with_shift_pipeline (s32 (shift_pipeline w - 1)) w2 in
      if negb (truthy (s32 (shift_pipeline w - 1)))
      then clock_shift_register w3 else w3
    else w2.
Proof.
  intros Ht. cbv zeta.
  rewrite <- (bits_set_rises 23 w), <- (bits_set_rises 19 w) by (trivial; lia).
  unfold clock. rewrite Ht, truthy_0. reflexivity.
Qed.

(** X2. With the test bit clear, [clock()] raises [msb_rising] exactly
    when accumulator bit 23 goes from 0 to 1 in that cycle, and arms the
    two-cycle noise pipeline, without shifting yet, exactly when bit 19
    does; without a rise of bit 19 and with an idle pipeline the noise
    register and the pipeline are left alone. *)
Theorem clock_edge_detection (w : WaveformGenerator) :
  test w = 0 ->
  msb_rising (clock w) = bit_rises 23 w
  /\ (bit_rises 19 w = true ->
      shift_pipeline (clock w) = 2
      /\ shift_register (clock w) = shift_register w)
  /\ (bit_rises 19 w = false -> shift_pipeline w = 0 ->
      shift_pipeline (clock w) = 0
      /\ shift_register (clock w) = shift_register w).
Proof.
  intros Ht. rewrite (clock_running w Ht). cbv zeta.
  split; [|split].
  - unfold clock_shift_register. split_ifs; reflexivity.
  - intros ->. split; reflexivity.
  - intros -> Hp. rewrite Hp, truthy_0. split; [exact Hp | reflexivity].
Qed.

Lemma clock_edge_detection_witness :
  test noise_clock_voice = 0
  /\ bit_rises 19 noise_clock_voice = true
  /\ shift_pipeline (clock noise_clock_voice) = 2.
Proof.
  assert (Ht : test noise_clock_voice = 0) by (vm_compute; reflexivity).
  assert (Hr : bit_rises 19 noise_clock_voice = true)
    by (vm_compute; reflexivity).
  destruct (clock_edge_detection noise_clock_voice Ht) as (_ & Harm & _).
  split; [exact Ht|]. split; [exact Hr|]. exact (proj1 (Harm Hr)).
Defined.

(** ** The noise register clock *)

Lemma clock_running_controls w :
  test w = 0 -> test (clock w) = 0.
Proof. intros Ht. now rewrite clock_test. Qed.

(** X3. With the test bit clear, when accumulator bit 19 rises in one
    cycle and not in the two cycles after it, the noise register is
    untouched by the first two of these three [clock()] calls and is
    shifted exactly once, by the third: the shift comes two cycles after
    the rise, and the pipeline is idle again. *)
Theorem noise_shift_delay (w : WaveformGenerator) :
  test w = 0 ->
  bit_rises 19 w = true ->
  bit_rises 19 (clock w) = false ->
  bit_rises 19 (clock (clock w)) = false ->
  shift_register (clock w) = shift_register w
  /\ shift_register (clock (clock w)) = shift_register w
  /\ shift_register (clock (clock (clock w)))
     = shift_register (clock_shift_register w)
  /\ noise_output (clock (clock (clock w)))
     = noise_output (clock_shift_register w)
  /\ shift_pipeline (clock (clock (clock w))) = 0.
Proof.
  intros Ht H1 H2 H3.
  pose proof (clock_running_controls w Ht) as Ht1.
  pose proof (clock_running_controls (clock w) Ht1) as Ht2.
  assert (E1 : shift_pipeline (clock w) = 2
               /\ shift_register (clock w) = shift_register w).
  { rewrite (clock_running w Ht). cbv zeta. rewrite H1. split; reflexivity. }
  destruct E1 as (P1 & S1).
  assert (E2 : shift_pipeline (clock (clock w)) = 1
               /\ shift_register (clock (clock w)) = shift_register w).
  { rewrite (clock_running (clock w) Ht1). cbv zeta. rewrite H2, P1.
    change (truthy 2) with true. change (s32 (2 - 1)) with 1.
    change (negb (truthy 1)) with false. cbv iota.
    split; [reflexivity | exact S1]. }
  destruct E2 as (P2 & S2).
  split; [exact S1|]. split; [exact S2|].
  rewrite (clock_running (clock (clock w)) Ht2). cbv zeta. rewrite H3, P2.
  change (truthy 1) with true. change (s32 (1 - 1)) with 0.
  change (negb (truthy 0)) with true. cbv iota.
  unfold clock_shift_register, set_noise_output. fields.
  rewrite S2. repeat split.
Qed.

Lemma noise_shift_delay_witness :
  test noise_clock_voice = 0
  /\ bit_rises 19 noise_clock_voice = true
  /\ shift_register (clock (clock noise_clock_voice))
     = shift_register noise_clock_voice
  /\ shift_register (clock (clock (clock noise_clock_voice)))
     = shift_register (clock_shift_register noise_clock_voice).
Proof.
  assert (Ht : test noise_clock_voice = 0) by (vm_compute; reflexivity).
  assert (H1 : bit_rises 19 noise_clock_voice = true)
    by (vm_compute; reflexivity).
  assert (H2 : bit_rises 19 (clock noise_clock_voice) = false)
    by (vm_compute; reflexivity).
  assert (H3 : bit_rises 19 (clock (clock noise_clock_voice)) = false)
    by (vm_compute; reflexivity).
  destruct (noise_shift_delay noise_clock_voice Ht H1 H2 H3)
    as (_ & Hsecond & Hthird & _).
  split; [exact Ht|]. split; [exact H1|].
  split; [exact Hsecond | exact Hthird].
Defined.

(** ** The shift register reset under the test bit *)

Lemma clock_n_held_test n w : test w <> 0 -> test (clock_n n w) <> 0.
Proof.
  intros Ht. induction n as [|n IH]; [exact Ht|].
  cbn [clock_n]. now rewrite clock_test.
Qed.

Lemma clock_held_countdown w :
  test w <> 0 ->
  (shift_register_reset w = 0 ->
   shift_register (clock w) = shift_register w
   /\ noise_output (clock w) = noise_output w
   /\ shift_register_reset (clock w) = 0)
  /\ (shift_register_reset w = 1 ->
      shift_register (clock w) = 0x7fffff
      /\ noise_output (clock w) = 0xff0
      /\ shift_register_reset (clock w) = 0)
  /\ (1 < shift_register_reset w < 2 ^ 31 ->
      shift_register (clock w) = shift_register w
      /\ noise_output (clock w) = noise_output w
      /\ shift_register_reset (clock w) = shift_register_reset w - 1).
Proof.
  intros Ht. rewrite (clock_held w Ht).
  split; [|split]; intros Hr.
  - rewrite Hr. repeat split. exact Hr.
  - rewrite Hr. repeat split.
  - rewrite (truthy_true (shift_register_reset w)) by lia.
    rewrite s32_small by lia.
    rewrite (truthy_true (shift_register_reset w - 1)) by lia.
    repeat split.
Qed.

(** X4. With the test bit set and R > 0 cycles left of the shift
    register reset, the shift register and the noise output are
    untouched by every number of [clock()] calls below R, and after R
    calls, and from then on, the register is all ones (0x7fffff), the
    noise output is 0xff0 and the countdown is over. *)
Theorem shift_register_reset_countdown
    (w : WaveformGenerator) (R : Z) (n : nat) :
  test w <> 0 ->
  shift_register_reset w = R ->
  0 < R < 2 ^ 31 ->
  (Z.of_nat n < R ->
   shift_register (clock_n n w) = shift_register w
   /\ noise_output (clock_n n w) = noise_output w
   /\ shift_register_reset (clock_n n w) = R - Z.of_nat n)
  /\ (R <= Z.of_nat n ->
      shift_register (clock_n n w) = 0x7fffff
      /\ noise_output (clock_n n w) = 0xff0
      /\ shift_register_reset (clock_n n w) = 0).
Proof.
  intros Ht HR Hrange.
  induction n as [|n IH].
  - cbn [clock_n]. split; [intros _; repeat split; lia | lia].
  - cbn [clock_n]. rewrite Nat2Z.inj_succ.
    destruct (clock_held_countdown (clock_n n w) (clock_n_held_test n w Ht))
      as (H0 & H1 & Hmany).
    destruct IH as (Hbefore & Hafter).
    destruct (Z.lt_ge_cases (Z.of_nat n) R) as [Hlt|Hge].
    + destruct (Hbefore Hlt) as (Es & En & Er).
      split; intros Hcmp.
      * destruct Hmany as (-> & -> & ->); [lia|].
        rewrite Es, En, Er. repeat split. lia.
      * destruct H1 as (-> & -> & ->); [lia|]. repeat split.
    + destruct (Hafter Hge) as (Es & En & Er).
      split; intros Hcmp; [lia|].
      destruct (H0 Er) as (-> & -> & ->). auto.
Qed.

Lemma shift_register_reset_countdown_witness :
  test resetting_voice <> 0
  /\ shift_register_reset resetting_voice = 5
  /\ shift_register (clock_n 4 resetting_voice)
     = shift_register resetting_voice
  /\ shift_register (clock_n 5 resetting_voice) = 0x7fffff.
Proof.
  assert (Ht : test resetting_voice <> 0) by (vm_compute; discriminate).
  assert (HR : shift_register_reset resetting_voice = 5)
    by (vm_compute; reflexivity).
  assert (Hrange : 0 < 5 < 2 ^ 31) by lia.
  split; [exact Ht|]. split; [exact HR|]. split.
  - destruct (shift_register_reset_countdown resetting_voice 5 4
                Ht HR Hrange) as (Hbefore & _).
    exact (proj1 (Hbefore eq_refl)).
  - destruct (shift_register_reset_countdown resetting_voice 5 5
                Ht HR Hrange) as (_ & Hafter).
    refine (proj1 (Hafter _)). discriminate.
Defined.

Lemma clock_n_held_form n w :
  test w <> 0 ->
  0 <= shift_register_reset w < 2 ^ 31 ->
  clock_n (S n) w
  = with_pulse_output 0xfff
      (if shift_register_reset w =? 0 then w
       else if shift_register_reset w <=? Z.of_nat (S n)
            then reset_shift_register w
            else with_shift_register_reset
                   (shift_register_reset w - Z.of_nat (S n)) w).
Proof.
  intros Ht Hr. induction n as [|n IH].
  - cbn [clock_n]. rewrite (clock_held w Ht).
    change (Z.of_nat 1) with 1.
    destruct (Z.eqb_spec (shift_register_reset w) 0) as [E0|N0].
    + rewrite E0. reflexivity.
    + rewrite (truthy_true _ N0), s32_small by lia.
      destruct (Z.leb_spec (shift_register_reset w) 1) as [Hle|Hgt].
      * replace (shift_register_reset w - 1) with 0 by lia. reflexivity.
      * rewrite (truthy_true (shift_register_reset w - 1)) by lia.
        reflexivity.
  - change (clock_n (S (S n)) w) with (clock (clock_n (S n) w)).
    rewrite (clock_held _ (clock_n_held_test (S n) w Ht)), IH.
    rewrite (Nat2Z.inj_succ (S n)).
    destruct (Z.eqb_spec (shift_register_reset w) 0) as [E0|N0].
    + fields. rewrite E0. reflexivity.
    + destruct (Z.leb_spec (shift_register_reset w) (Z.of_nat (S n)))
        as [Hle|Hgt].
      * replace (shift_register_reset w <=? Z.succ (Z.of_nat (S n)))
          with true by (symmetry; apply Z.leb_le; lia).
        reflexivity.
      * fields.
        rewrite (truthy_true (shift_register_reset w - Z.of_nat (S n)))
          by lia.
        rewrite s32_small by lia.
        destruct (Z.leb_spec (shift_register_reset w)
                    (Z.succ (Z.of_nat (S n)))) as [Hle'|Hgt'].
        -- replace (shift_register_reset w - Z.of_nat (S n) - 1)
             with 0 by lia.
           reflexivity.
        -- rewrite (truthy_true
                      (shift_register_reset w - Z.of_nat (S n) - 1))
             by lia.
           cbn [negb].
           replace (shift_register_reset w - Z.of_nat (S n) - 1)
             with (shift_register_reset w - Z.succ (Z.of_nat (S n)))
             by lia.
           reflexivity.
Qed.

(** X5. While the test bit is set the delta clock is exact: with a
    reset countdown that is not negative, [clock(n)] for 1 <= n < 2^31
    returns the very state that n single-cycle [clock()] calls leave,
    member for member. *)
Theorem held_delta_clock_exact (w : WaveformGenerator) (n : nat) :
  test w <> 0 ->
  0 <= shift_register_reset w < 2 ^ 31 ->
  (1 <= n)%nat ->
  Z.of_nat n < 2 ^ 31 ->
  clock_delta (Z.of_nat n) w = Some (clock_n n w).
Proof.
  intros Ht Hr Hn Hmax.
  destruct n as [|n]; [lia|].
  rewrite (clock_n_held_form n w Ht Hr).
  unfold clock_delta. rewrite (truthy_true _ Ht). f_equal.
  destruct (Z.eqb_spec (shift_register_reset w) 0) as [E0|N0].
  - rewrite E0. reflexivity.
  - rewrite (truthy_true _ N0). fields. rewrite s32_small by lia.
    destruct (Z.leb_spec (shift_register_reset w) (Z.of_nat (S n)))
      as [Hle|Hgt].
    + replace (shift_register_reset w - Z.of_nat (S n) <=? 0)
        with true by (symmetry; apply Z.leb_le; lia).
      reflexivity.
    + replace (shift_register_reset w - Z.of_nat (S n) <=? 0)
        with false by (symmetry; apply Z.leb_gt; lia).
      reflexivity.
Qed.

Lemma held_delta_clock_exact_witness :
  test resetting_voice <> 0
  /\ clock_delta (Z.of_nat 7) resetting_voice
     = Some (clock_n 7 resetting_voice).
Proof.
  assert (Ht : test resetting_voice <> 0) by (vm_compute; discriminate).
  split; [exact Ht|].
  apply (held_delta_clock_exact resetting_voice 7 Ht).
  - vm_compute. split; [discriminate | reflexivity].
  - apply Nat2Z.inj_le. vm_compute. discriminate.
  - vm_compute. reflexivity.
Defined.

(** ** The cached noise output *)

Ltac index_arith :=
  cbn [Z.add Z.sub Z.opp Z.pos_sub Pos.add Pos.succ Pos.add_carry
       Pos.pred_double Z.succ_double Z.pred_double Z.double
       Z.ltb Z.compare Pos.compare Pos.compare_cont].

Ltac decide_bits :=
  repeat match goal with
         | |- context [Z.testbit ?x (Zneg ?k)] =>
           change (Z.testbit x (Zneg k)) with false
         end;
  const_bits;
  repeat match goal with
         | |- context [Z.testbit ?x ?k] =>
           is_var x; destruct (Z.testbit x k)
         end;
  reflexivity.

Ltac step_bits :=
  first
    [ match goal with
      | |- context [Z.testbit ?a (Zneg ?k)] =>
        change (Z.testbit a (Zneg k)) with false
      end
    | rewrite Z.lor_spec | rewrite Z.land_spec
    | match goal with
      | |- context [Z.testbit (Z.shiftl ?a ?n) ?m] =>
        rewrite (Z.shiftl_spec a n m) by lia
      end
    | match goal with
      | |- context [Z.testbit (Z.shiftr ?a ?n) ?m] =>
        rewrite (Z.shiftr_spec a n m) by lia
      end
    | match goal with
      | |- context [Z.testbit (?a mod 2 ^ ?n) ?m] =>
        rewrite (Z.testbit_mod_pow2 a n m) by lia
      end
    | match goal with
      | |- context [Z.testbit (Z.lnot ?a) ?m] =>
        rewrite (Z.lnot_spec a m) by lia
      end ].

Ltac all_bits := repeat (step_bits; index_arith).

(** The bits [write_shift_register] lets through at the tap positions are
    the waveform output bits that [set_noise_output] packs from them. *)
Lemma write_mask_tap (wo out tap : Z) :
  In (out, tap)
     [(11, 20); (10, 18); (9, 14); (8, 11); (7, 9); (6, 5); (5, 2); (4, 0)] ->
  Z.testbit (write_mask wo) tap = Z.testbit wo out.
Proof.
  intros Hin. unfold write_mask, u32.
  let v := eval vm_compute in noise_taps in change noise_taps with v.
  cbn [In] in Hin.
  repeat (destruct Hin as [Hin|Hin];
          [injection Hin as <- <-; all_bits; decide_bits|]).
  contradiction.
Qed.

Lemma write_back_noise_output (w : WaveformGenerator) :
  u16 (Z.land (noise_output (set_noise_output w)) (waveform_output w))
  = noise_output (set_noise_output (write_shift_register w)).
Proof.
  apply Z.bits_inj'. intros i Hi. unfold u16 at 1.
  rewrite Z.testbit_mod_pow2, Z.land_spec by lia.
  destruct (Z.lt_ge_cases i 4) as [Hlow|Hge4].
  { rewrite !noise_output_low by lia. now rewrite andb_false_r. }
  destruct (Z.lt_ge_cases i 12) as [Hmid|Hhigh].
  2:{ rewrite !noise_output_high by lia. now rewrite andb_false_r. }
  replace (i <? 16) with true by (symmetry; apply Z.ltb_lt; lia).
  cbn [andb].
  assert (Htap : exists tap,
             In (i, tap)
                [(11, 20); (10, 18); (9, 14); (8, 11);
                 (7, 9); (6, 5); (5, 2); (4, 0)]).
  { assert (Hcases : i = 4 \/ i = 5 \/ i = 6 \/ i = 7 \/ i = 8 \/ i = 9
                     \/ i = 10 \/ i = 11) by lia.
    cbn [In].
    destruct Hcases as [-> | [-> | [-> | [-> | [-> | [-> | [-> | ->]]]]]]];
      eexists; eauto 10. }
  destruct Htap as (tap & Hin).
  rewrite (noise_output_tap w i tap Hin).
  rewrite (noise_output_tap (write_shift_register w) i tap Hin).
  unfold write_shift_register. fields.
  rewrite Z.land_spec. f_equal. symmetry. now apply write_mask_tap.
Qed.

Lemma set_noise_output_cached w : noise_cached (set_noise_output w).
Proof. split; reflexivity. Qed.

Lemma write_shift_register_cached w :
  noise_cached w -> noise_cached (write_shift_register w).
Proof.
  intros [Hn _].
  assert (E : noise_output (write_shift_register w)
              = noise_output (set_noise_output (write_shift_register w))).
  { rewrite <- write_back_noise_output, <- Hn. reflexivity. }
  split; [exact E|].
  change (no_noise_or_noise_output (write_shift_register w))
    with (u16 (Z.lor (no_noise w) (noise_output (write_shift_register w)))).
  rewrite E at 1. reflexivity.
Qed.

Lemma clock_cached w : noise_cached w -> noise_cached (clock w).
Proof.
  intros H. unfold clock, reset_shift_register, clock_shift_register.
  split_ifs; first [exact H | split; reflexivity].
Qed.

Lemma set_waveform_output_cached src w :
  noise_cached w -> noise_cached (set_waveform_output src w).
Proof.
  intros H. unfold set_waveform_output.
  assert (Hp : forall p x, noise_cached x -> noise_cached (with_pulse_output p x))
    by (intros p x Hx; exact Hx).
  apply Hp.
  destruct (truthy (waveform w)).
  - match goal with
    | |- noise_cached (if _ then write_shift_register ?x else _) =>
      assert (Hx : noise_cached x)
    end.
    { destruct (drives_msb w);
        destruct (truthy (Z.land (waveform w) 3) && is_8580 (sid_model w));
        exact H. }
    match goal with
    | |- noise_cached (if ?c then _ else _) => destruct c; [|exact Hx]
    end.
    apply write_shift_register_cached. exact Hx.
  - destruct (truthy (floating_output_ttl w)); [|exact H].
    destruct (negb _); exact H.
Qed.

Lemma set_waveform_output_delta_cached d src w :
  noise_cached w -> noise_cached (set_waveform_output_delta d src w).
Proof.
  intros H. unfold set_waveform_output_delta.
  destruct (truthy (waveform w)).
  - match goal with
    | |- noise_cached (if _ then write_shift_register ?x else _) =>
      assert (Hx : noise_cached x)
    end.
    { destruct (drives_msb w); exact H. }
    match goal with
    | |- noise_cached (if ?c then _ else _) => destruct c; [|exact Hx]
    end.
    apply write_shift_register_cached. exact Hx.
  - destruct (truthy (floating_output_ttl w)); [|exact H].
    destruct (_ <=? 0); exact H.
Qed.

Lemma clock_delta_cached d w :
  noise_cached w ->
  exists w', clock_delta d w = Some w' /\ noise_cached w'.
Proof.
  intros H. unfold clock_delta.
  destruct (truthy (test w)).
  - eexists. split; [reflexivity|].
    unfold reset_shift_register.
    split_ifs; first [exact H | split; reflexivity].
  - set (da := u32 (d * freq w)).
    set (w2 := with_msb_rising _ _).
    destruct (shift_loop_total noise_cached
                (fun x _ => set_noise_output_cached _)
                (shift_loop_fuel da) da 0x100000 w2 (u32_range _))
      as (w3 & -> & Hw3).
    + left. split; trivial. apply shift_loop_fuel_enough, u32_range.
    + exact H.
    + eexists. split; [reflexivity | exact Hw3].
Qed.

Lemma cycle_cached synced src w :
  noise_cached w -> noise_cached (cycle synced src w).
Proof.
  intros H. unfold cycle. apply set_waveform_output_cached.
  pose proof (clock_cached w H) as Hc.
  destruct synced; exact Hc.
Qed.

Lemma run_cached n : forall s,
  (forall b, noise_cached (s b)) -> forall b, noise_cached (run n s b).
Proof.
  induction n as [|n IH]; intros s Hs b; [apply Hs|].
  cbn [run]. apply IH. intros c.
  destruct (next_sample_voice s c) as (synced & src & -> & _).
  now apply cycle_cached.
Qed.

(** X6. The cached noise output never goes stale: if [noise_output] and
    [no_noise_or_noise_output] are what [set_noise_output] would compute
    from the shift register, they still are after [clock()], after the
    delta clock, after either [set_waveform_output] (whose write-back
    and's the shift register and the cache separately) and after any
    number of passes of the sample loop; [clock_shift_register] and
    [reset_shift_register] establish it from any state. *)
Theorem noise_output_follows_shift_register (s : SID) :
  (forall b, noise_cached (s b)) ->
  forall (b : voice_id) (delta_t src : Z) (n : nat),
    noise_cached (clock (s b))
    /\ (exists w', clock_delta delta_t (s b) = Some w' /\ noise_cached w')
    /\ noise_cached (set_waveform_output src (s b))
    /\ noise_cached (set_waveform_output_delta delta_t src (s b))
    /\ noise_cached (write_shift_register (s b))
    /\ noise_cached (run n s b)
    /\ forall w, noise_cached (clock_shift_register w)
                 /\ noise_cached (reset_shift_register w).
Proof.
  intros Hs b delta_t src n.
  split; [apply clock_cached, Hs|].
  split; [apply clock_delta_cached, Hs|].
  split; [apply set_waveform_output_cached, Hs|].
  split; [apply set_waveform_output_delta_cached, Hs|].
  split; [apply write_shift_register_cached, Hs|].
  split; [now apply run_cached|].
  intros w. split; apply set_noise_output_cached.
Qed.

Lemma sync_ring_cached : forall b, noise_cached (sync_ring b).
Proof. intros b. destruct b; vm_compute; split; reflexivity. Qed.

Lemma noise_output_follows_shift_register_witness :
  (forall b, noise_cached (sync_ring b))
  /\ noise_cached (set_waveform_output 0 (sync_ring V1))
  /\ noise_cached (run 2 sync_ring V1).
Proof.
  split; [exact sync_ring_cached|].
  destruct (noise_output_follows_shift_register sync_ring sync_ring_cached
              V1 1 0 2%nat)
    as (_ & _ & Hout & _ & _ & Hrun & _).
  split; [exact Hout | exact Hrun].
Defined.

(** ** The 12-bit outputs *)

Lemma below_pow2_of_bits (n x : Z) :
  0 <= n -> 0 <= x ->
  (forall i, n <= i -> Z.testbit x i = false) -> x < 2 ^ n.
Proof.
  intros Hn Hx Hbits.
  destruct (Z.lt_ge_cases x (2 ^ n)) as [Hlt|Hge]; [exact Hlt|].
  exfalso.
  assert (Hpos : 0 < x) by (pose proof (Z.pow_pos_nonneg 2 n); lia).
  assert (Hlog : n <= Z.log2 x) by (apply Z.log2_le_pow2; lia).
  pose proof (Z.bit_log2 x Hpos) as Hset.
  rewrite (Hbits _ Hlog) in Hset. discriminate.
Qed.

Lemma lor_bound (n a b : Z) :
  0 <= n -> 0 <= a < 2 ^ n -> 0 <= b < 2 ^ n -> 0 <= Z.lor a b < 2 ^ n.
Proof.
  intros Hn Ha Hb.
  assert (Hnn : 0 <= Z.lor a b) by (apply Z.lor_nonneg; lia).
  split; [exact Hnn|].
  apply below_pow2_of_bits; trivial.
  intros i Hi. rewrite Z.lor_spec.
  rewrite <- (Z.mod_small a (2 ^ n)), <- (Z.mod_small b (2 ^ n)) by lia.
  rewrite !Z.mod_pow2_bits_high by lia. reflexivity.
Qed.

Lemma land_bound_r (n a b : Z) :
  0 <= n -> 0 <= b < 2 ^ n -> 0 <= Z.land a b < 2 ^ n.
Proof. intros Hn Hb. rewrite Z.land_comm. now apply land_bound. Qed.

Lemma set_noise_output_range w :
  0 <= noise_output (set_noise_output w) < 4096.
Proof.
  assert (Hnn : 0 <= noise_output (set_noise_output w)).
  { unfold set_noise_output, u16. fields. apply Z.mod_pos_bound. lia. }
  split; [exact Hnn|].
  apply (below_pow2_of_bits 12); [lia | exact Hnn|].
  intros i Hi. now apply noise_output_high.
Qed.

Lemma masks_cache_range w :
  masks_in_range w -> 0 <= no_noise_or_noise_output w < 4096.
Proof.
  intros (Hn & Ho & ->).
  pose proof (lor_bound 12 _ _ ltac:(lia) Hn Ho) as Hl.
  rewrite u16_small; lia.
Qed.

Lemma set_noise_output_masks w :
  0 <= no_noise w < 4096 -> masks_in_range (set_noise_output w).
Proof.
  intros Hn. split; [exact Hn|]. split; [apply set_noise_output_range|].
  reflexivity.
Qed.

Lemma write_shift_register_masks w :
  masks_in_range w -> masks_in_range (write_shift_register w).
Proof.
  intros (Hn & Ho & _). split; [exact Hn|]. split; [|reflexivity].
  unfold write_shift_register. fields.
  pose proof (land_bound 12 (noise_output w) (waveform_output w)
                ltac:(lia) Ho).
  rewrite u16_small; lia.
Qed.

Lemma reset_shift_register_masks w :
  masks_in_range w -> masks_in_range (reset_shift_register w).
Proof.
  intros H. unfold reset_shift_register.
  apply set_noise_output_masks. exact (proj1 H).
Qed.

Lemma clock_shift_register_masks w :
  masks_in_range w -> masks_in_range (clock_shift_register w).
Proof.
  intros H. unfold clock_shift_register.
  apply set_noise_output_masks. exact (proj1 H).
Qed.

Lemma with_pulse_output_masks p w :
  masks_in_range w -> masks_in_range (with_pulse_output p w).
Proof. intros H. exact H. Qed.

Lemma clock_masks w : masks_in_range w -> masks_in_range (clock w).
Proof.
  intros H. unfold clock.
  destruct (truthy (test w)).
  - apply with_pulse_output_masks.
    destruct (truthy (shift_register_reset w)); [|exact H].
    destruct (negb _); [|exact H].
    apply reset_shift_register_masks. exact H.
  - set (w2 := with_msb_rising _ (with_accumulator _ w)).
    assert (H2 : masks_in_range w2) by exact H.
    destruct (truthy (Z.land _ 0x080000)); [exact H2|].
    destruct (truthy (shift_pipeline w2)); [|exact H2].
    destruct (negb _); [|exact H2].
    apply clock_shift_register_masks. exact H2.
Qed.

Lemma noise_pulse6581_range x :
  0 <= x < 4096 -> 0 <= noise_pulse6581 x < 4096.
Proof.
  intros Hx. unfold noise_pulse6581.
  destruct (x <? 0xf00); [lia|].
  apply (land_bound 12); [lia|]. now apply (land_bound 12).
Qed.

Lemma noise_pulse8580_range x :
  0 <= x < 4096 -> 0 <= noise_pulse8580 x < 4096.
Proof.
  intros Hx. unfold noise_pulse8580.
  destruct (x <? 0xfc0); [|lia].
  now apply (land_bound 12).
Qed.

Lemma set_waveform_output_masked src w :
  masks_in_range w ->
  (truthy (waveform w) = false -> outputs_in_range w) ->
  well_masked (set_waveform_output src w).
Proof.
  intros Hm Ho. pose proof (masks_cache_range w Hm) as Hc.
  unfold set_waveform_output.
  assert (Hp : forall p x, well_masked x -> well_masked (with_pulse_output p x))
    by (intros p x Hx; exact Hx).
  apply Hp.
  destruct (truthy (waveform w)).
  - assert (Hlook : 0 <= wave_lookup src w < 4096)
      by (apply (land_bound_r 12); [lia | exact Hc]).
    set (output := if Z.land (waveform w) 0xc =? 0xc then _ else _).
    assert (Hout : 0 <= output < 4096).
    { subst output. destruct (_ =? 0xc); [|exact Hlook].
      destruct (is_6581 _);
        [now apply noise_pulse6581_range | now apply noise_pulse8580_range]. }
    match goal with
    | |- well_masked (if _ then write_shift_register ?x else _) =>
      assert (Hx : well_masked x)
    end.
    { destruct (drives_msb w);
        destruct (truthy (Z.land (waveform w) 3) && is_8580 (sid_model w));
        (split; [exact Hm|]); split; fields; trivial;
        (apply (land_bound_r 12); [lia | exact Hc]). }
    match goal with
    | |- well_masked (if ?c then _ else _) => destruct c; [|exact Hx]
    end.
    destruct Hx as (Hxm & Hxo).
    split; [now apply write_shift_register_masks | exact Hxo].
  - specialize (Ho eq_refl).
    destruct (truthy (floating_output_ttl w)); [|now split].
    destruct (negb _); [|now split].
    split; [exact Hm|]. split; fields; lia.
Qed.

Lemma set_waveform_output_delta_masked d src w :
  masks_in_range w ->
  (truthy (waveform w) = false -> outputs_in_range w) ->
  well_masked (set_waveform_output_delta d src w).
Proof.
  intros Hm Ho. pose proof (masks_cache_range w Hm) as Hc.
  unfold set_waveform_output_delta.
  destruct (truthy (waveform w)).
  - assert (Hlook : 0 <= wave_lookup src w < 4096)
      by (apply (land_bound_r 12); [lia | exact Hc]).
    match goal with
    | |- well_masked (if _ then write_shift_register ?x else _) =>
      assert (Hx : well_masked x)
    end.
    { destruct (drives_msb w); (split; [exact Hm|]); split; exact Hlook. }
    match goal with
    | |- well_masked (if ?c then _ else _) => destruct c; [|exact Hx]
    end.
    destruct Hx as (Hxm & Hxo).
    split; [now apply write_shift_register_masks | exact Hxo].
  - specialize (Ho eq_refl).
    destruct (truthy (floating_output_ttl w)); [|now split].
    destruct (_ <=? 0); [|now split].
    split; [exact Hm|]. split; fields; lia.
Qed.

Lemma clock_masked w : well_masked w -> well_masked (clock w).
Proof.
  intros (Hm & Ho). split; [now apply clock_masks|].
  destruct (clock_outputs w) as (Ew & E3 & _).
  unfold outputs_in_range. now rewrite Ew, E3.
Qed.

Lemma cycle_masked synced src w :
  well_masked w -> well_masked (cycle synced src w).
Proof.
  intros H. unfold cycle.
  destruct (clock_masked w H) as (Hm & Ho).
  apply set_waveform_output_masked; destruct synced; auto.
Qed.

Lemma run_masked n : forall s,
  (forall b, well_masked (s b)) -> forall b, well_masked (run n s b).
Proof.
  induction n as [|n IH]; intros s Hs b; [apply Hs|].
  cbn [run]. apply IH. intros c.
  destruct (next_sample_voice s c) as (synced & src & -> & _).
  now apply cycle_masked.
Qed.

(** X7. Whatever the table rows hold, the DAC input and OSC3 stay
    12-bit values: when [no_noise] and the noise output are within 12
    bits and the cache is their or, every [set_waveform_output] with a
    waveform selected leaves [waveform_output] and [osc3] in [0, 4095]
    (with none selected it keeps them there), and this, together with
    the condition on the masks, holds on through [clock()] and any number
    of passes of the sample loop. *)
Theorem outputs_stay_12_bit (s : SID) :
  (forall b, well_masked (s b)) ->
  forall (b : voice_id) (delta_t src : Z) (n : nat),
    well_masked (clock (s b))
    /\ well_masked (set_waveform_output src (s b))
    /\ well_masked (set_waveform_output_delta delta_t src (s b))
    /\ well_masked (run n s b)
    /\ forall w,
         masks_in_range w -> waveform w <> 0 ->
         outputs_in_range (set_waveform_output src w)
         /\ outputs_in_range (set_waveform_output_delta delta_t src w).
Proof.
  intros Hs b delta_t src n.
  split; [apply clock_masked, Hs|].
  split; [apply set_waveform_output_masked; intros; apply Hs|].
  split; [apply set_waveform_output_delta_masked; intros; apply Hs|].
  split; [now apply run_masked|].
  intros w Hm Hw.
  assert (Hsel : truthy (waveform w) = false -> outputs_in_range w).
  { rewrite (truthy_true _ Hw). discriminate. }
  split.
  - apply (set_waveform_output_masked src w Hm Hsel).
  - apply (set_waveform_output_delta_masked delta_t src w Hm Hsel).
Qed.

Lemma sync_ring_masked : forall b, well_masked (sync_ring b).
Proof.
  intros b. destruct b; vm_compute; repeat split; discriminate.
Qed.

Lemma outputs_stay_12_bit_witness :
  (forall b, well_masked (sync_ring b))
  /\ well_masked (set_waveform_output 0 (sync_ring V1))
  /\ well_masked (run 2 sync_ring V1).
Proof.
  split; [exact sync_ring_masked|].
  destruct (outputs_stay_12_bit sync_ring sync_ring_masked V1 1 0 2%nat)
    as (_ & Hout & _ & Hrun & _).
  split; [exact Hout | exact Hrun].
Defined.

(** ** The table index *)

Lemma lxor_bound (n a b : Z) :
  0 <= n -> 0 <= a < 2 ^ n -> 0 <= b < 2 ^ n -> 0 <= Z.lxor a b < 2 ^ n.
Proof.
  intros Hn Ha Hb.
  assert (Hnn : 0 <= Z.lxor a b) by (apply Z.lxor_nonneg; lia).
  split; [exact Hnn|].
  apply below_pow2_of_bits; trivial.
  intros i Hi. rewrite Z.lxor_spec.
  rewrite <- (Z.mod_small a (2 ^ n)), <- (Z.mod_small b (2 ^ n)) by lia.
  rewrite !Z.mod_pow2_bits_high by lia. reflexivity.
Qed.

(** X8. The table lookup of [set_waveform_output] never leaves the 4096
    entries of a table row: with the accumulator and the ring modulation
    mask within 24 bits the index is in [0, 4095], whatever the
    accumulator of the sync source. *)
Theorem wave_index_in_bounds (src : Z) (w : WaveformGenerator) :
  0 <= accumulator w < 2 ^ 24 ->
  0 <= ring_msb_mask w < 2 ^ 24 ->
  0 <= wave_index src w < 4096.
Proof.
  intros Ha Hm. unfold wave_index. apply shiftr12_range.
  apply lxor_bound; [lia | exact Ha|].
  now apply land_bound_r.
Qed.

Lemma wave_index_in_bounds_witness :
  0 <= accumulator ring_mod_voice < 2 ^ 24
  /\ 0 <= ring_msb_mask ring_mod_voice < 2 ^ 24
  /\ 0 <= wave_index 0xffffffff ring_mod_voice < 4096.
Proof.
  assert (Ha : 0 <= accumulator ring_mod_voice < 2 ^ 24)
    by (vm_compute; split; [discriminate | reflexivity]).
  assert (Hm : 0 <= ring_msb_mask ring_mod_voice < 2 ^ 24)
    by (vm_compute; split; [discriminate | reflexivity]).
  split; [exact Ha|]. split; [exact Hm|].
  exact (wave_index_in_bounds 0xffffffff ring_mod_voice Ha Hm).
Defined.

(** X9. Ring modulation touches the top index bit only: with the mask
    at 0x800000 the top bit of the table index is the accumulator MSB
    exclusive-or'ed with the complement of the sync source's MSB and the
    lower eleven index bits are accumulator bits 12 to 22; with the mask
    at 0 the index is the upper accumulator bits, whatever the sync
    source holds. *)
Theorem ring_modulation_index (src : Z) (w : WaveformGenerator) :
  (ring_msb_mask w = 0x800000 ->
   Z.testbit (wave_index src w) 11
   = xorb (Z.testbit (accumulator w) 23) (negb (Z.testbit src 23))
   /\ forall i, 0 <= i < 11 ->
        Z.testbit (wave_index src w) i = Z.testbit (accumulator w) (i + 12))
  /\ (ring_msb_mask w = 0 ->
      wave_index src w = Z.shiftr (accumulator w) 12).
Proof.
  unfold wave_index, u32. split.
  - intros ->. change 0x800000 with (2 ^ 23). split.
    + rewrite Z.shiftr_spec, Z.lxor_spec, Z.land_spec by lia.
      rewrite Z.testbit_mod_pow2, Z.lnot_spec, Z.pow2_bits_true by lia.
      cbn [Z.add Pos.add Pos.succ Z.ltb Z.compare Pos.compare
           Pos.compare_cont andb].
      now rewrite andb_true_r.
    + intros i Hi.
      rewrite Z.shiftr_spec, Z.lxor_spec, Z.land_spec by lia.
      rewrite (Z.pow2_bits_false 23 (i + 12)) by lia.
      now rewrite andb_false_r, xorb_false_r.
  - intros ->. now rewrite Z.land_0_r, Z.lxor_0_r.
Qed.

Lemma ring_modulation_index_witness :
  ring_msb_mask ring_mod_voice = 0x800000
  /\ Z.testbit (wave_index 0 ring_mod_voice) 11
     = xorb (Z.testbit (accumulator ring_mod_voice) 23)
         (negb (Z.testbit 0 23)).
Proof.
  assert (Hm : ring_msb_mask ring_mod_voice = 0x800000)
    by (vm_compute; reflexivity).
  split; [exact Hm|].
  destruct (ring_modulation_index 0 ring_mod_voice) as (Hring & _).
  exact (proj1 (Hring Hm)).
Defined.

(** ** Feedback from the output into the phase *)

Lemma set_waveform_output_accumulator_value src w :
  accumulator (set_waveform_output src w)
  = if truthy (waveform w) && drives_msb w
    then Z.land (accumulator w)
           (Z.lor
              (u32 (Z.shiftl (waveform_output (set_waveform_output src w)) 12))
              0x7fffff)
    else accumulator w.
Proof.
  unfold set_waveform_output, write_shift_register.
  destruct (truthy (waveform w)); cbn [andb];
    [destruct (drives_msb w)|]; split_ifs; reflexivity.
Qed.

(** X14. [set_waveform_output] can pull the accumulator MSB low and
    nothing else: for an accumulator within its 24 bits every bit but
    bit 23 is as before, and bit 23 survives unless a waveform is
    selected, the 6581 feedback condition holds (sawtooth together with
    another waveform bit) and bit 11 of the new waveform output is 0. *)
Theorem msb_feedback (src : Z) (w : WaveformGenerator) :
  0 <= accumulator w < 2 ^ 24 ->
  let w' := set_waveform_output src w in
  (forall i, i <> 23 ->
     Z.testbit (accumulator w') i = Z.testbit (accumulator w) i)
  /\ Z.testbit (accumulator w') 23
     = Z.testbit (accumulator w) 23
       && (negb (truthy (waveform w) && drives_msb w)
           || Z.testbit (waveform_output w') 11).
Proof.
  intros Ha. cbv zeta.
  rewrite set_waveform_output_accumulator_value.
  generalize (waveform_output (set_waveform_output src w)). intros wo.
  destruct (truthy (waveform w) && drives_msb w); cbn [negb orb].
  2:{ split; [reflexivity | now rewrite andb_true_r]. }
  change 0x7fffff with (Z.ones 23). unfold u32. split.
  - intros i Hi. rewrite Z.land_spec, Z.lor_spec.
    destruct (Z.neg_nonneg_cases i) as [Hneg|Hpos];
      [now rewrite !Z.testbit_neg_r by lia|].
    destruct (Z.lt_ge_cases i 23) as [Hlt|Hge].
    + rewrite Z.ones_spec_low by lia.
      now rewrite orb_true_r, andb_true_r.
    + assert (Hhigh : Z.testbit (accumulator w) i = false).
      { rewrite <- (Z.mod_small _ _ Ha).
        apply Z.mod_pow2_bits_high. lia. }
      now rewrite Hhigh.
  - rewrite Z.land_spec, Z.lor_spec.
    rewrite Z.testbit_mod_pow2, Z.shiftl_spec by lia.
    rewrite Z.ones_spec_high by lia.
    cbn [Z.sub Z.add Z.opp Z.pos_sub Pos.pred_double Z.ltb Z.compare
         Pos.compare Pos.compare_cont andb Z.pred_double Z.succ_double
         Z.double].
    now rewrite orb_false_r.
Qed.

Lemma msb_feedback_witness :
  0 <= accumulator combined_voice < 2 ^ 24
  /\ Z.testbit (accumulator (set_waveform_output 0 combined_voice)) 22
     = Z.testbit (accumulator combined_voice) 22.
Proof.
  assert (Ha : 0 <= accumulator combined_voice < 2 ^ 24)
    by (vm_compute; split; [discriminate | reflexivity]).
  split; [exact Ha|].
  destruct (msb_feedback 0 combined_voice Ha) as (Hrest & _).
  apply Hrest. discriminate.
Defined.

(** ** OSC3 *)

Lemma low12_cache (n : Z) :
  forall i, 0 <= i < 12 -> Z.testbit (u16 (Z.lor 0xfff n)) i = true.
Proof.
  intros i Hi. unfold u16.
  rewrite Z.testbit_mod_pow2, Z.lor_spec by lia.
  replace (i <? 16) with true by (symmetry; apply Z.ltb_lt; lia).
  change 0xfff with (Z.ones 12). rewrite Z.ones_spec_low by lia.
  reflexivity.
Qed.

Lemma low12_pulse (p : Z) :
  forall i, 0 <= i < 12 -> Z.testbit (Z.lor 0xfff p) i = true.
Proof.
  intros i Hi. rewrite Z.lor_spec.
  change 0xfff with (Z.ones 12). rewrite Z.ones_spec_low by lia.
  reflexivity.
Qed.

Lemma clock_cache_cases w :
  no_noise_or_noise_output (clock w) = no_noise_or_noise_output w
  \/ exists n,
       no_noise_or_noise_output (clock w) = u16 (Z.lor (no_noise w) n).
Proof.
  unfold clock, reset_shift_register, clock_shift_register,
    set_noise_output.
  split_ifs; fields; first [now left | right; eexists; reflexivity].
Qed.

Lemma clock_pipeline_frame w :
  tri_saw_pipeline (clock w) = tri_saw_pipeline w
  /\ no_pulse (clock w) = no_pulse w
  /\ no_noise (clock w) = no_noise w.
Proof. repeat split; frame. Qed.

Lemma sawtooth_step src w :
  sawtooth_selected w ->
  0 <= accumulator w < 2 ^ 24 ->
  let w1 := set_waveform_output src w in
  waveform_output w1 = Z.shiftr (accumulator w) 12
  /\ (sid_model w = MOS8580 ->
      tri_saw_pipeline w1 = Z.shiftr (accumulator w) 12)
  /\ no_noise_or_noise_output w1 = no_noise_or_noise_output w
  /\ no_pulse w1 = no_pulse w /\ no_noise w1 = no_noise w.
Proof.
  intros (Hw & Hring & Hpulse & Hnoise & Hcache & Htable) Hacc.
  pose proof (shiftr12_range _ Hacc) as Hix.
  assert (Hindex : wave_index src w = Z.shiftr (accumulator w) 12).
  { unfold wave_index. now rewrite Hring, Z.land_0_r, Z.lxor_0_r. }
  assert (Hlookup : wave_lookup src w = Z.shiftr (accumulator w) 12).
  { unfold wave_lookup. rewrite Hindex, Htable by exact Hix.
    rewrite Hcache, Hpulse, Hnoise.
    rewrite (land_low12 _ _ Hix (low12_pulse _)).
    apply (land_low12 _ _ Hix (low12_cache _)). }
  cbv zeta. unfold set_waveform_output, drives_msb.
  rewrite Hw, Hlookup, Hindex.
  change (truthy 2) with true. change (Z.land 2 12 =? 12) with false.
  change (Z.land 2 13) with 0. change (truthy 0) with false.
  change (8 <? 2) with false. change (truthy (Z.land 2 3)) with true.
  cbn [andb]. rewrite andb_false_r. cbv iota.
  split; [destruct (is_8580 (sid_model w)); reflexivity|].
  split.
  - intros ->. cbn [is_8580]. fields. now apply Htable.
  - destruct (is_8580 (sid_model w)); repeat split.
Qed.

(** X10. OSC3 against the DAC input.  With a waveform selected, OSC3
    equals [waveform_output] after [set_waveform_output] on a 6581, on
    an 8580 without triangle or sawtooth, and always after the delta
    variant.  On an 8580 playing a pure sawtooth OSC3 is one cycle
    late: after the next cycle it holds the [waveform_output] of this
    one, the upper 12 bits of this cycle's accumulator, even if the
    voice is hard-synced in between. *)
Theorem osc3_pipeline (src : Z) (w : WaveformGenerator) :
  (waveform w <> 0 ->
   sid_model w = MOS6581 \/ Z.land (waveform w) 3 = 0 ->
   osc3 (set_waveform_output src w)
   = waveform_output (set_waveform_output src w))
  /\ (waveform w <> 0 ->
      forall d,
        osc3 (set_waveform_output_delta d src w)
        = waveform_output (set_waveform_output_delta d src w))
  /\ (sawtooth_selected w ->
      sid_model w = MOS8580 ->
      0 <= accumulator w < 2 ^ 24 ->
      forall (synced : bool) (src' : Z),
        osc3 (cycle synced src' (set_waveform_output src w))
        = waveform_output (set_waveform_output src w)
        /\ waveform_output (set_waveform_output src w)
           = Z.shiftr (accumulator w) 12).
Proof.
  split; [|split].
  - intros Hw Hmodel. unfold set_waveform_output, write_shift_register.
    rewrite (truthy_true _ Hw).
    assert (Hno : truthy (Z.land (waveform w) 3) && is_8580 (sid_model w)
                  = false).
    { destruct Hmodel as [-> | ->]; [apply andb_false_r | reflexivity]. }
    rewrite Hno. split_ifs; reflexivity.
  - intros Hw d. unfold set_waveform_output_delta, write_shift_register.
    rewrite (truthy_true _ Hw). split_ifs; reflexivity.
  - intros Hsel Hmodel Hacc synced src'.
    destruct (sawtooth_step src w Hsel Hacc)
      as (Hout & Hpipe & Hcache & Hnp & Hnn).
    specialize (Hpipe Hmodel).
    split; [|exact Hout]. rewrite Hout.
    destruct Hsel as (Hw & _ & Hpulse & Hnoise & Hc & _).
    set (w1 := set_waveform_output src w) in *.
    destruct (set_waveform_output_controls src w)
      as (_ & Ew & _ & _ & _ & _ & Em & _).
    fold w1 in Ew, Em.
    destruct (clock_controls w1) as (_ & Ecw & _ & _ & _ & _ & Ecm).
    destruct (clock_pipeline_frame w1) as (Ect & Ecp & Ecn).
    unfold cycle.
    set (c := if synced then with_accumulator 0 (clock w1) else clock w1).
    assert (Hc' : waveform c = 2 /\ sid_model c = MOS8580
                  /\ tri_saw_pipeline c = Z.shiftr (accumulator w) 12
                  /\ no_pulse c = 0xfff
                  /\ forall i, 0 <= i < 12 ->
                       Z.testbit (no_noise_or_noise_output c) i = true).
    { assert (Hlow : forall i, 0 <= i < 12 ->
                Z.testbit (no_noise_or_noise_output (clock w1)) i = true).
      { destruct (clock_cache_cases w1) as [E | [n E]]; rewrite E.
        - rewrite Hcache, Hc, Hnoise. apply low12_cache.
        - rewrite Hnn, Hnoise. apply low12_cache. }
      subst c. destruct synced; fields;
        rewrite Ecw, Ecm, Ect, Ecp, Ew, Em, Hw, Hmodel, Hpipe, Hnp, Hpulse;
        auto. }
    destruct Hc' as (Hcw & Hcm & Hct & Hcp & Hcl).
    pose proof (shiftr12_range _ Hacc) as Hix.
    unfold set_waveform_output, write_shift_register, drives_msb.
    rewrite Hcw, Hcm.
    change (truthy 2) with true. change (Z.land 2 12 =? 12) with false.
    change (Z.land 2 13) with 0. change (truthy 0) with false.
    change (8 <? 2) with false. change (truthy (Z.land 2 3)) with true.
    cbn [andb is_8580 is_6581]. cbv iota. fields.
    rewrite Hct, Hcp.
    rewrite (land_low12 _ _ Hix (low12_pulse _)).
    apply (land_low12 _ _ Hix Hcl).
Qed.

Lemma osc3_pipeline_witness :
  sawtooth_selected sawtooth_8580_voice
  /\ sid_model sawtooth_8580_voice = MOS8580
  /\ osc3 (cycle false 0 (set_waveform_output 0 sawtooth_8580_voice))
     = waveform_output (set_waveform_output 0 sawtooth_8580_voice).
Proof.
  assert (Hsel : sawtooth_selected sawtooth_8580_voice) by (repeat split).
  assert (Hm : sid_model sawtooth_8580_voice = MOS8580) by reflexivity.
  assert (Hacc : 0 <= accumulator sawtooth_8580_voice < 2 ^ 24)
    by (vm_compute; split; [discriminate | reflexivity]).
  split; [exact Hsel|]. split; [exact Hm|].
  destruct (osc3_pipeline 0 sawtooth_8580_voice) as (_ & _ & Hlag).
  exact (proj1 (Hlag Hsel Hm Hacc false 0)).
Defined.

(** ** The delta clock and accumulator bit 19 *)

Lemma bit19_before_step (a da : Z) :
  0 <= a < 2 ^ 24 ->
  Z.testbit (u32 ((a + da) mod 2 ^ 24 - da)) 19 = Z.testbit a 19.
Proof.
  intros Ha. unfold u32.
  rewrite Z.mod_pow2_bits_low by lia.
  rewrite <- (Z.mod_pow2_bits_low _ 24 19) by lia.
  rewrite Zminus_mod_idemp_l.
  replace (a + da - da) with a by lia.
  now rewrite Z.mod_small.
Qed.

(** X11. A delta clock whose phase increment is at most half a noise
    period (0 < delta_t * freq <= 0x80000, test bit clear, accumulator
    within its 24 bits) shifts the noise register exactly when
    accumulator bit 19 goes from 0 to 1 over the step, once and at once,
    and leaves it alone otherwise. *)
Theorem delta_clock_small_step (delta_t : Z) (w : WaveformGenerator) :
  test w = 0 ->
  0 <= accumulator w < 2 ^ 24 ->
  0 < u32 (delta_t * freq w) <= 0x080000 ->
  exists w',
    clock_delta delta_t w = Some w'
    /\ accumulator w'
       = (accumulator w + u32 (delta_t * freq w)) mod 2 ^ 24
    /\ shift_register w'
       = if negb (Z.testbit (accumulator w) 19)
            && Z.testbit (accumulator w') 19
         then shift_register (clock_shift_register w)
         else shift_register w.
Proof.
  intros Ht Ha Hda. unfold clock_delta. rewrite Ht, truthy_0.
  set (da := u32 (delta_t * freq w)) in *.
  assert (Hfuel : shift_loop_fuel da = 2%nat).
  { unfold shift_loop_fuel. rewrite Z.div_small by lia. reflexivity. }
  rewrite Hfuel. rewrite mask24.
  set (next := (accumulator w + da) mod 2 ^ 24).
  cbn [shift_loop]. fields.
  rewrite (truthy_true da) by lia.
  replace (da <? 0x100000) with true by (symmetry; apply Z.ltb_lt; lia).
  replace (da <=? 0x080000) with true by (symmetry; apply Z.leb_le; lia).
  change 0x080000 with (2 ^ 19).
  rewrite !truthy_land_pow2 by lia.
  unfold next at 1. rewrite (bit19_before_step _ da Ha).
  rewrite Z.sub_diag. change (truthy (u32 0)) with false.
  destruct (Z.testbit (accumulator w) 19); cbn [orb negb andb].
  - eexists. repeat split.
  - destruct (Z.testbit next 19) eqn:Hnow; cbn [negb];
      eexists; (split; [reflexivity|]);
      unfold clock_shift_register, set_noise_output; fields; rewrite Hnow;
      split; reflexivity.
Qed.

Lemma delta_clock_small_step_witness :
  test noise_clock_voice = 0
  /\ 0 < u32 (1 * freq noise_clock_voice) <= 0x080000
  /\ exists w',
       clock_delta 1 noise_clock_voice = Some w'
       /\ accumulator w'
          = (accumulator noise_clock_voice
             + u32 (1 * freq noise_clock_voice)) mod 2 ^ 24
       /\ shift_register w'
          = if negb (Z.testbit (accumulator noise_clock_voice) 19)
               && Z.testbit (accumulator w') 19
            then shift_register (clock_shift_register noise_clock_voice)
            else shift_register noise_clock_voice.
Proof.
  assert (Ht : test noise_clock_voice = 0) by (vm_compute; reflexivity).
  assert (Ha : 0 <= accumulator noise_clock_voice < 2 ^ 24)
    by (vm_compute; split; [discriminate | reflexivity]).
  assert (Hd : 0 < u32 (1 * freq noise_clock_voice) <= 0x080000)
    by (vm_compute; split; [reflexivity | discriminate]).
  split; [exact Ht|]. split; [exact Hd|].
  exact (delta_clock_small_step 1 noise_clock_voice Ht Ha Hd).
Defined.

(** ** Hard sync over the three voices *)

Lemma synchronize_at a s c :
  synchronize a s c
  = if sync_fires a s && voice_eqb c (sync_dest (s a))
    then with_accumulator 0 (s c) else s c.
Proof.
  unfold synchronize. fold (sync_fires a s).
  destruct (sync_fires a s); cbn [andb]; [|reflexivity].
  unfold store.
  destruct (voice_eqb c (sync_dest (s a))) eqn:E; [|reflexivity].
  apply voice_eqb_eq in E. now subst c.
Qed.

Lemma synchronize_keeps_flags a s c :
  msb_rising (synchronize a s c) = msb_rising (s c)
  /\ sync (synchronize a s c) = sync (s c)
  /\ sync_dest (synchronize a s c) = sync_dest (s c)
  /\ sync_source (synchronize a s c) = sync_source (s c).
Proof.
  rewrite synchronize_at. destruct (_ && _); repeat split.
Qed.

Lemma sync_fires_after a b s :
  sync_fires a (synchronize b s) = sync_fires a s
  /\ sync_dest (synchronize b s a) = sync_dest (s a).
Proof.
  unfold sync_fires.
  destruct (synchronize_keeps_flags b s a) as (-> & -> & -> & ->).
  destruct (synchronize_keeps_flags b s (sync_dest (s a)))
    as (_ & -> & _ & _).
  destruct (synchronize_keeps_flags b s (sync_source (s a)))
    as (-> & _ & _ & _).
  split; reflexivity.
Qed.

Lemma synchronize_all_at s c :
  synchronize_all s c
  = if sync_hits c s then with_accumulator 0 (s c) else s c.
Proof.
  unfold synchronize_all, sync_hits.
  rewrite (synchronize_at V2).
  destruct (sync_fires_after V2 V1 (synchronize V0 s)) as (-> & ->).
  destruct (sync_fires_after V2 V0 s) as (-> & ->).
  rewrite (synchronize_at V1).
  destruct (sync_fires_after V1 V0 s) as (-> & ->).
  rewrite (synchronize_at V0).
  destruct (sync_fires V0 s && voice_eqb c (sync_dest (s V0)));
    destruct (sync_fires V1 s && voice_eqb c (sync_dest (s V1)));
    destruct (sync_fires V2 s && voice_eqb c (sync_dest (s V2)));
    reflexivity.
Qed.

(** X12. Hard sync is decided on the snapshot the clocks leave:
    [synchronize()] calls on two voices give the same state in either
    order, and after the three calls of the sample loop a voice has its
    accumulator zeroed exactly if, in the state before the first call,
    some voice's MSB had risen with this voice as its sync-enabled
    destination and without the self-sync exception; nothing else of any
    voice has changed. *)
Theorem synchronize_snapshot (s : SID) (a b c : voice_id) :
  synchronize a (synchronize b s) c = synchronize b (synchronize a s) c
  /\ synchronize_all s c
     = if sync_hits c s then with_accumulator 0 (s c) else s c.
Proof.
  split; [|apply synchronize_all_at].
  rewrite (synchronize_at a (synchronize b s)).
  rewrite (synchronize_at b (synchronize a s)).
  destruct (sync_fires_after a b s) as (-> & ->).
  destruct (sync_fires_after b a s) as (-> & ->).
  rewrite (synchronize_at a s), (synchronize_at b s).
  destruct (sync_fires a s && voice_eqb c (sync_dest (s a)));
    destruct (sync_fires b s && voice_eqb c (sync_dest (s b)));
    reflexivity.
Qed.

(** ** The noise register as a shift register *)

Lemma cycle_empty_register synced src w :
  test w = 0 -> shift_register w = 0 ->
  shift_register (cycle synced src w) = 0.
Proof.
  intros Ht Hs.
  assert (Hc : shift_register (clock w) = 0).
  { rewrite (clock_running w Ht). cbv zeta.
    unfold clock_shift_register, set_noise_output.
    split_ifs; fields; rewrite Hs; reflexivity. }
  unfold cycle.
  set (c := if synced then with_accumulator 0 (clock w) else clock w).
  assert (Hcs : shift_register c = 0) by (subst c; destruct synced; exact Hc).
  unfold set_waveform_output, write_shift_register.
  split_ifs; fields; rewrite Hcs; reflexivity.
Qed.

(** X15. An emptied noise register stays empty: with the test bit
    clear, once the shift register is 0 it is 0 after any number of
    passes of the sample loop, whatever is clocked, shifted or written
    back, and with it the noise output that is packed from it. *)
Theorem empty_noise_register_stays_empty
    (s : SID) (a : voice_id) (n : nat) :
  test (s a) = 0 ->
  shift_register (s a) = 0 ->
  shift_register (run n s a) = 0
  /\ noise_output (set_noise_output (run n s a)) = 0.
Proof.
  intros Ht Hs.
  assert (Hrun : shift_register (run n s a) = 0).
  { destruct (run_voice n s a) as (env & _ & -> & _).
    clear n. revert Ht Hs. generalize (s a). clear s a.
    induction env as [|[synced src] rest IH]; intros w Ht Hs;
      cbn [cycles]; [exact Hs|].
    apply IH.
    - destruct (cycle_controls synced src w) as (-> & _). exact Ht.
    - now apply cycle_empty_register. }
  split; [exact Hrun|].
  unfold set_noise_output. fields. rewrite Hrun. reflexivity.
Qed.

Lemma empty_noise_register_stays_empty_witness :
  test (silent_ring V0) = 0
  /\ shift_register (silent_ring V0) = 0
  /\ shift_register (run 3 silent_ring V0) = 0.
Proof.
  assert (Ht : test (silent_ring V0) = 0) by (vm_compute; reflexivity).
  assert (Hs : shift_register (silent_ring V0) = 0)
    by (vm_compute; reflexivity).
  split; [exact Ht|]. split; [exact Hs|].
  exact (proj1 (empty_noise_register_stays_empty silent_ring V0 3 Ht Hs)).
Defined.

(** X16. The LFSR step loses nothing: on 23-bit registers
    [clock_shift_register] is injective, so two different noise states
    never shift into the same one, and shifting alone never empties a
    register that is not empty. *)
Theorem lfsr_step_injective (w1 w2 : WaveformGenerator) :
  0 <= shift_register w1 < 2 ^ 23 ->
  0 <= shift_register w2 < 2 ^ 23 ->
  (shift_register (clock_shift_register w1)
   = shift_register (clock_shift_register w2) ->
   shift_register w1 = shift_register w2)
  /\ (shift_register w1 <> 0 ->
      shift_register (clock_shift_register w1) <> 0).
Proof.
  intros H1 H2.
  assert (Hinj : forall x y,
            0 <= shift_register x < 2 ^ 23 ->
            0 <= shift_register y < 2 ^ 23 ->
            shift_register (clock_shift_register x)
            = shift_register (clock_shift_register y) ->
            shift_register x = shift_register y).
  { intros x y Hx Hy Heq.
    destruct (clock_shift_register_bits x) as (X0 & Xmid & _).
    destruct (clock_shift_register_bits y) as (Y0 & Ymid & _).
    cbv zeta in *. rewrite Heq in X0, Xmid.
    assert (Hlow : forall i, 0 <= i < 22 ->
              Z.testbit (shift_register x) i
              = Z.testbit (shift_register y) i).
    { intros i Hi.
      specialize (Xmid (i + 1) ltac:(lia)).
      specialize (Ymid (i + 1) ltac:(lia)).
      replace (i + 1 - 1) with i in * by lia. congruence. }
    apply Z.bits_inj'. intros i Hi.
    destruct (Z.lt_ge_cases i 22) as [Hlt|Hge]; [apply Hlow; lia|].
    destruct (Z.eq_dec i 22) as [->|Hne].
    - rewrite X0 in Y0. rewrite (Hlow 17) in Y0 by lia.
      destruct (Z.testbit (shift_register x) 22),
        (Z.testbit (shift_register y) 22),
        (Z.testbit (shift_register y) 17); cbn in Y0; congruence.
    - rewrite <- (Z.mod_small _ _ Hx), <- (Z.mod_small _ _ Hy).
      rewrite !Z.mod_pow2_bits_high by lia. reflexivity. }
  split; [now apply Hinj|].
  intros Hnz Hzero. apply Hnz.
  apply (Hinj w1 (with_shift_register 0 w1) H1); [fields; lia|].
  rewrite Hzero. reflexivity.
Qed.

Lemma lfsr_step_injective_witness :
  0 <= shift_register at_rest < 2 ^ 23
  /\ shift_register (clock_shift_register at_rest) <> 0.
Proof.
  assert (H : 0 <= shift_register at_rest < 2 ^ 23)
    by (vm_compute; split; [discriminate | reflexivity]).
  split; [exact H|].
  destruct (lfsr_step_injective at_rest at_rest H H) as (_ & Hnz).
  apply Hnz. vm_compute. discriminate.
Defined.

(** ** The two output computations *)

(** X17. What the delta variant of [set_waveform_output] leaves out is
    all that separates it from the single-cycle one: with a waveform
    selected that does not combine noise with pulse, on a 6581 (or
    without triangle and sawtooth), and outside the last phase of the
    noise shift pipeline, the single-cycle call leaves the state of the
    delta call with the pulse comparator result stored on top; with no
    waveform selected the same holds for a delta of one cycle and a
    countdown that is not negative. *)
Theorem delta_output_agrees (d src : Z) (w : WaveformGenerator) :
  (waveform w <> 0 ->
   Z.land (waveform w) 0xc <> 0xc ->
   sid_model w = MOS6581 \/ Z.land (waveform w) 3 = 0 ->
   shift_pipeline w <> 1 ->
   set_waveform_output src w
   = with_pulse_output (pulse_level (set_waveform_output_delta d src w))
       (set_waveform_output_delta d src w))
  /\ (waveform w = 0 ->
      0 <= floating_output_ttl w < 2 ^ 31 ->
      set_waveform_output src w
      = with_pulse_output (pulse_level (set_waveform_output_delta 1 src w))
          (set_waveform_output_delta 1 src w)).
Proof.
  split.
  - intros Hw Hnp Hmodel Hsp.
    unfold set_waveform_output, set_waveform_output_delta.
    rewrite (truthy_true _ Hw).
    apply Z.eqb_neq in Hnp. rewrite Hnp.
    apply Z.eqb_neq in Hsp. rewrite Hsp.
    assert (Hno : truthy (Z.land (waveform w) 3) && is_8580 (sid_model w)
                  = false).
    { destruct Hmodel as [-> | ->]; [apply andb_false_r | reflexivity]. }
    rewrite Hno. cbn [negb]. rewrite andb_true_r.
    destruct (drives_msb w);
      destruct ((8 <? waveform w) && negb (truthy (test w)));
      reflexivity.
  - intros Hw Ht.
    unfold set_waveform_output, set_waveform_output_delta.
    rewrite Hw. change (truthy 0) with false. cbv iota.
    destruct (Z.eqb_spec (floating_output_ttl w) 0) as [E0|N0].
    + rewrite E0. reflexivity.
    + rewrite (truthy_true _ N0). fields. rewrite s32_small by lia.
      destruct (Z.leb_spec (floating_output_ttl w - 1) 0) as [Hle|Hgt].
      * replace (floating_output_ttl w - 1) with 0 by lia. reflexivity.
      * rewrite (truthy_true (floating_output_ttl w - 1)) by lia.
        reflexivity.
Qed.

Lemma delta_output_agrees_witness :
  waveform combined_voice <> 0
  /\ set_waveform_output 0 combined_voice
     = with_pulse_output
         (pulse_level (set_waveform_output_delta 5 0 combined_voice))
         (set_waveform_output_delta 5 0 combined_voice).
Proof.
  assert (Hw : waveform combined_voice <> 0) by (vm_compute; discriminate).
  split; [exact Hw|].
  destruct (delta_output_agrees 5 0 combined_voice) as (Hsel & _).
  apply Hsel.
  - exact Hw.
  - vm_compute. discriminate.
  - left. vm_compute. reflexivity.
  - vm_compute. discriminate.
Defined.

(** ** One pass of the sample loop, voice by voice *)

Lemma synchronize_all_after_clock s c :
  synchronize_all (clock_all s) c = after_sync s c.
Proof.
  rewrite synchronize_all_at, clock_all_voice. reflexivity.
Qed.

Lemma after_sync_source s c :
  sync_source (after_sync s c) = sync_source (s c).
Proof.
  unfold after_sync.
  destruct (clock_controls (s c)) as (_ & _ & _ & _ & E & _).
  destruct (sync_hits c (clock_all s)); exact E.
Qed.

Lemma next_sample_at s b :
  next_sample s b
  = set_waveform_output (source_read s b) (after_sync s b).
Proof.
  unfold source_read. cbv zeta.
  unfold next_sample, set_waveform_output_all, set_waveform_output_voice,
    store.
  destruct b; cbn [voice_eqb];
    rewrite ?synchronize_all_after_clock, ?after_sync_source;
    destruct (sync_source (s V0)), (sync_source (s V1)),
      (sync_source (s V2));
    cbn [voice_eqb voice_ltb];
    rewrite ?synchronize_all_after_clock, ?after_sync_source;
    reflexivity.
Qed.

(** X13. One pass of the SIDOsc sample loop acts on each voice by
    itself: the voice's own [clock()], then a zeroing of its accumulator
    exactly if a hard sync hits it in the state all three clocks leave,
    then its own [set_waveform_output()], which reads the accumulator of
    its sync source as that voice stands at that point of the pass:
    already through its own [set_waveform_output()] if the loop visits
    it earlier, clocked and synchronized only if not. *)
Theorem sample_loop_per_voice (s : SID) (b : voice_id) :
  next_sample s b
  = set_waveform_output
      (accumulator
         (if voice_ltb (sync_source (s b)) b
          then next_sample s (sync_source (s b))
          else if sync_hits (sync_source (s b)) (clock_all s)
               then with_accumulator 0 (clock (s (sync_source (s b))))
               else clock (s (sync_source (s b)))))
      (if sync_hits b (clock_all s)
       then with_accumulator 0 (clock (s b)) else clock (s b)).
Proof. exact (next_sample_at s b). Qed.

(** ** The test bit over the sample loop *)

(** C3, as the code has it.  With the test bit set, and the accumulator
    at the zero the test bit holds it at, arbitrarily many passes of the
    sample loop (clock, synchronize, set_waveform_output) never change
    the accumulator, neither at the end of a pass nor between its steps.
    [clock()] sets the pulse output to 0xfff in every pass, and that
    0xfff is what the output computation of the pass reads; the
    [set_waveform_output()] of the pass then stores the comparator
    result in its place, so between that call and the next [clock()] the
    pulse output is the comparator result, not 0xfff as such. *)
Theorem test_bit_freeze (s : SID) (a : voice_id) (n : nat) :
  test (s a) <> 0 ->
  accumulator (s a) = 0 ->
  let t := run n s in
  let entry := after_sync t a in
  accumulator (t a) = accumulator (s a)
  /\ accumulator (clock (t a)) = accumulator (s a)
  /\ accumulator entry = accumulator (s a)
  /\ pulse_output (clock (t a)) = 0xfff
  /\ pulse_output entry = 0xfff
  /\ next_sample t a = set_waveform_output (source_read t a) entry
  /\ wave_lookup (source_read t a) entry
     = Z.land
         (Z.land (wave entry (wave_index (source_read t a) entry))
            (Z.lor (no_pulse entry) 0xfff))
         (no_noise_or_noise_output entry)
  /\ ((0 < n)%nat -> pulse_output (t a) = comparator (t a)).
Proof.
  intros Ht H0. cbv zeta.
  destruct (run_controls n s a) as (Etest & _).
  assert (Htn : test (run n s a) <> 0) by now rewrite Etest.
  destruct (clock_held_frame _ Htn) as (Ha & _ & _ & _ & _ & _ & Hp).
  destruct (run_voice n s a) as (env & Hlen & Hrun & _).
  destruct (cycles_held env (s a) Ht) as (_ & Hsub & _ & Hpulse).
  rewrite <- Hrun in Hsub, Hpulse.
  assert (Hzero : accumulator (run n s a) = 0).
  { unfold submask in Hsub. rewrite H0, Z.land_0_r in Hsub.
    now symmetry. }
  assert (Hentry : accumulator (after_sync (run n s) a) = 0
                   /\ pulse_output (after_sync (run n s) a) = 0xfff).
  { unfold after_sync.
    destruct (sync_hits a (clock_all (run n s))); fields.
    - split; [reflexivity | exact Hp].
    - split; [now rewrite Ha | exact Hp]. }
  destruct Hentry as (Hea & Hep).
  rewrite H0.
  split; [exact Hzero|].
  split; [now rewrite Ha|].
  split; [exact Hea|].
  split; [exact Hp|].
  split; [exact Hep|].
  split; [apply next_sample_at|].
  split; [unfold wave_lookup; now rewrite Hep|].
  intros Hn. apply Hpulse. intros ->. cbn [length] in Hlen. lia.
Qed.

Lemma test_bit_freeze_witness :
  test (held_ring V0) <> 0
  /\ accumulator (held_ring V0) = 0
  /\ accumulator (run 2 held_ring V0) = accumulator (held_ring V0)
  /\ pulse_output (after_sync (run 2 held_ring) V0) = 0xfff
  /\ pulse_output (run 2 held_ring V0) = comparator (run 2 held_ring V0).
Proof.
  assert (Ht : test (held_ring V0) <> 0) by (vm_compute; discriminate).
  assert (H0 : accumulator (held_ring V0) = 0) by (vm_compute; reflexivity).
  destruct (test_bit_freeze held_ring V0 2 Ht H0)
    as (Ha & _ & _ & _ & Hp & _ & _ & Hc).
  split; [exact Ht|]. split; [exact H0|]. split; [exact Ha|].
  split; [exact Hp|].
  apply Hc. repeat constructor.
Defined.

(** C3 as stated fails: after one pass of the sample loop over a voice
    that the test bit holds at accumulator zero, with a pulse width of
    0x800, the pulse output is 0x000. *)
Lemma test_bit_freeze_counterexample :
  test (held_ring V0) <> 0
  /\ accumulator (held_ring V0) = 0
  /\ pulse_output (run 1 held_ring V0) = 0x000.
Proof.
  vm_compute. repeat split; discriminate.
Qed.
